(** * GridRecall: the statistics and settings layer

    A shallow embedding of the four utility modules of the repository
    ([gameStats.ts], [gameSettings.ts], [pwaStats.ts] and
    [unifiedStatsManager.ts]) and the properties their specification states.

    Conventions.
    - A JavaScript [number] that holds a count, a streak, a percentage or a
      setting is an integer of [Z]; the one place where the source leaves
      the integers, the quotient in [calculateAccuracy], is computed on
      binary64 floats, as the engine does.
    - A [boolean[]] is a [list bool]; an object used as a dictionary
      ([GameStatsMap]) is a [gmap string _], so that key order is
      irrelevant by construction. *)

From Stdlib Require Import ZArith Lia.
From Stdlib Require Import Floats.PrimFloat Floats.SpecFloat Floats.FloatOps.
From Stdlib Require Import Numbers.Cyclic.Int63.Uint63.
From Stdlib Require Import Strings.Ascii Strings.String.
From stdpp Require Import base list strings gmap fin_maps pretty.

Local Open Scope Z_scope.

(** ** The engine's primitives the sources rely on *)

Module JS.

(** An array length or a count as a [number]. Lengths are below 2^32, so
    the conversion is exact. *)
Definition Number_of_nat (n : nat) : float :=
  PrimFloat.of_uint63 (Uint63.of_Z (Z.of_nat n)).

(** [Math.round]: the integer nearest to the argument, a tie going up.
    A finite binary64 is [m * 2^e] exactly, so the result is computed on
    integers: [floor (m * 2^e + 1/2)]. The function is only applied to
    finite values here; the other cases are mapped to 0. *)
Definition Math_round (x : float) : Z :=
  match Prim2SF x with
  | S754_finite s m e =>
      let v := if s then Z.neg m else Z.pos m in
      if 0 <=? e then v * 2 ^ e
      else (2 * v + 2 ^ (- e)) / 2 ^ (1 - e)
  | _ => 0
  end.

Definition Math_max (a b : Z) : Z := Z.max a b.
Definition Math_min (a b : Z) : Z := Z.min a b.

(** [`${n}`] for an integer [n]: decimal digits, with a leading minus
    sign for a negative number (the engine's text of an integer below
    10^21 in absolute value). *)
Definition Number_toString (n : Z) : string := pretty n.

(** [a || b] on numbers: [b] when [a] is [undefined] or [0]. *)
Definition or_default (a : option Z) (b : Z) : Z :=
  match a with
  | Some v => if v =? 0 then b else v
  | None => b
  end.

(** [Array.prototype.shift]: drop the first element. *)
Definition shift {A} (l : list A) : list A := tail l.

End JS.

(** ** gameStats.ts *)

Record GameStats := mkGameStats {
  totalChallenges : Z;
  recentAnswers : list bool;
  maxConsecutiveCorrect : Z;
  currentConsecutiveCorrect : Z;
  bestAccuracy : Z
}.

(** The settings record, with the five fields of [gameSettings.ts]; the
    statistics modules declare the first four only and are handed the
    same objects. *)
Record GameSettings := mkGameSettings {
  gridSize : Z;
  showTime : Z;
  answerTime : Z;
  numActiveCells : Z;
  targetConsecutive : Z
}.

Definition MAX_RECENT_ANSWERS : nat := 100.

Definition initializeStats : GameStats :=
  {| totalChallenges := 0;
     recentAnswers := [];
     maxConsecutiveCorrect := 0;
     currentConsecutiveCorrect := 0;
     bestAccuracy := 0 |}.

Definition generateSettingsKey (settings : GameSettings) : string :=
  JS.Number_toString (gridSize settings) +:+ "-" +:+
  JS.Number_toString (showTime settings) +:+ "-" +:+
  JS.Number_toString (answerTime settings) +:+ "-" +:+
  JS.Number_toString (numActiveCells settings).

(** [calculateAccuracy] reads [recentAnswers] only; [accuracyOf] is its
    body on that field. *)
Definition accuracyOf (answers : list bool) : Z :=
  if (length answers =? 0)%nat then 0
  else
    let correctCount := length (List.filter (fun answer => answer) answers) in
    JS.Math_round
      (PrimFloat.mul
         (PrimFloat.div (JS.Number_of_nat correctCount)
                        (JS.Number_of_nat (length answers)))
         (JS.Number_of_nat 100)).

Definition calculateAccuracy (stats : GameStats) : Z :=
  accuracyOf (recentAnswers stats).

Definition updateStats (stats : GameStats) (isCorrect : bool) : GameStats :=
  let appended := recentAnswers stats ++ [isCorrect] in
  let newRecentAnswers :=
    if (MAX_RECENT_ANSWERS <? length appended)%nat
    then JS.shift appended else appended in
  let newCurrentConsecutiveCorrect :=
    if isCorrect then currentConsecutiveCorrect stats + 1 else 0 in
  let newMaxConsecutiveCorrect :=
    JS.Math_max (maxConsecutiveCorrect stats) newCurrentConsecutiveCorrect in
  let currentAccuracy :=
    calculateAccuracy
      {| totalChallenges := totalChallenges stats;
         recentAnswers := newRecentAnswers;
         maxConsecutiveCorrect := maxConsecutiveCorrect stats;
         currentConsecutiveCorrect := currentConsecutiveCorrect stats;
         bestAccuracy := bestAccuracy stats |} in
  let newBestAccuracy := JS.Math_max (bestAccuracy stats) currentAccuracy in
  {| totalChallenges := totalChallenges stats + 1;
     recentAnswers := newRecentAnswers;
     maxConsecutiveCorrect := newMaxConsecutiveCorrect;
     currentConsecutiveCorrect := newCurrentConsecutiveCorrect;
     bestAccuracy := newBestAccuracy |}.

(** One call of [updateStats] per graded answer, oldest first. *)
Definition recordAnswers (stats : GameStats) (outcomes : list bool) : GameStats :=
  foldl updateStats stats outcomes.

(** ** gameSettings.ts *)

(** [Partial<GameSettings>]: every field may be absent. *)
Record PartialGameSettings := mkPartial {
  gridSize_opt : option Z;
  showTime_opt : option Z;
  answerTime_opt : option Z;
  numActiveCells_opt : option Z;
  targetConsecutive_opt : option Z
}.

Definition DEFAULT_SETTINGS : GameSettings :=
  {| gridSize := 4;
     showTime := 500;
     answerTime := 0;
     numActiveCells := 5;
     targetConsecutive := 20 |}.

Definition validateSettings (settings : PartialGameSettings) : GameSettings :=
  {| gridSize :=
       JS.Math_max 2 (JS.Math_min 8
         (JS.or_default (gridSize_opt settings) (gridSize DEFAULT_SETTINGS)));
     showTime :=
       JS.Math_max 100 (JS.Math_min 10000
         (JS.or_default (showTime_opt settings) (showTime DEFAULT_SETTINGS)));
     answerTime :=
       JS.Math_max 0 (JS.Math_min 30000
         (JS.or_default (answerTime_opt settings) (answerTime DEFAULT_SETTINGS)));
     numActiveCells :=
       JS.Math_max 1 (JS.Math_min 64
         (JS.or_default (numActiveCells_opt settings)
                        (numActiveCells DEFAULT_SETTINGS)));
     targetConsecutive :=
       JS.Math_max 1 (JS.Math_min 100
         (JS.or_default (targetConsecutive_opt settings)
                        (targetConsecutive DEFAULT_SETTINGS))) |}.

(** A complete record handed to the validator. *)
Definition complete (s : GameSettings) : PartialGameSettings :=
  {| gridSize_opt := Some (gridSize s);
     showTime_opt := Some (showTime s);
     answerTime_opt := Some (answerTime s);
     numActiveCells_opt := Some (numActiveCells s);
     targetConsecutive_opt := Some (targetConsecutive s) |}.

(** The ranges of the data model, as the validator enforces them: the
    bound on [numActiveCells] is the constant 64. *)
Definition inRange (s : GameSettings) : Prop :=
  2 <= gridSize s <= 8 /\
  100 <= showTime s <= 10000 /\
  0 <= answerTime s <= 30000 /\
  1 <= numActiveCells s <= 64 /\
  1 <= targetConsecutive s <= 100.

(** The ranges as the data model declares them: [numActiveCells] is
    bounded by the square of the record's own [gridSize]. *)
Definition inDeclaredRange (s : GameSettings) : Prop :=
  2 <= gridSize s <= 8 /\
  100 <= showTime s <= 10000 /\
  0 <= answerTime s <= 30000 /\
  1 <= numActiveCells s <= gridSize s * gridSize s /\
  1 <= targetConsecutive s <= 100.

(** ** Effects: state and exceptions

    Every storage function reads or writes the browser's stores and may
    throw. A computation takes the state and returns its outcome with the
    state it leaves; what was written before an exception stays written.
    An [await] is a sequencing point: the event loop runs the calls of one
    user action one after the other. *)

Inductive Result (A : Type) : Type :=
| Ok (a : A)
| Thrown (e : string).
Arguments Ok {A} a.
Arguments Thrown {A} e.

Definition M (St A : Type) : Type := St -> Result A * St.

Definition ret {St A} (a : A) : M St A := fun s => (Ok a, s).

Definition bind {St A B} (m : M St A) (k : A -> M St B) : M St B :=
  fun s =>
    match m s with
    | (Ok a, s') => k a s'
    | (Thrown e, s') => (Thrown e, s')
    end.

Definition throw {St A} (e : string) : M St A := fun s => (Thrown e, s).

Definition gets {St A} (f : St -> A) : M St A := fun s => (Ok (f s), s).

Definition modify {St} (f : St -> St) : M St unit := fun s => (Ok tt, f s).

Declare Scope js_scope.
Delimit Scope js_scope with js.
Notation "'let*' x := m 'in' k" := (bind m (fun x => k))
  (at level 10, x name, m at level 100, k at level 200) : js_scope.
Notation "m ;; k" := (bind m (fun _ => k))
  (at level 100, k at level 200, right associativity) : js_scope.
Local Open Scope js_scope.

(** [for (const x of xs) await body(x)]. *)
Fixpoint forEach {St A} (xs : list A) (body : A -> M St unit) : M St unit :=
  match xs with
  | [] => ret tt
  | x :: rest => body x ;; forEach rest body
  end.

(** ** The stored shape of a record

    A record read back from a store, or parsed from a payload, may be of
    the shape that precedes [bestAccuracy]; the field is then absent. *)
Record StoredStats := mkStored {
  stored_totalChallenges : Z;
  stored_recentAnswers : list bool;
  stored_maxConsecutiveCorrect : Z;
  stored_currentConsecutiveCorrect : Z;
  stored_bestAccuracy : option Z
}.

(** [if (!stats.hasOwnProperty("bestAccuracy")) stats.bestAccuracy = 0]. *)
Definition migrate (o : StoredStats) : GameStats :=
  {| totalChallenges := stored_totalChallenges o;
     recentAnswers := stored_recentAnswers o;
     maxConsecutiveCorrect := stored_maxConsecutiveCorrect o;
     currentConsecutiveCorrect := stored_currentConsecutiveCorrect o;
     bestAccuracy :=
       match stored_bestAccuracy o with
       | Some b => b
       | None => 0
       end |}.

(** A [GameStats] written out: all five fields present. *)
Definition toStored (s : GameStats) : StoredStats :=
  {| stored_totalChallenges := totalChallenges s;
     stored_recentAnswers := recentAnswers s;
     stored_maxConsecutiveCorrect := maxConsecutiveCorrect s;
     stored_currentConsecutiveCorrect := currentConsecutiveCorrect s;
     stored_bestAccuracy := Some (bestAccuracy s) |}.

(** ** The browser

    The ambient capabilities [isPWA] tests, the [gameStatsMap] item of
    [localStorage] and the [stats] object store of the [GameStatsDB]
    database, keyed by [settingsKey]. The [timestamp] and [updatedAt]
    fields of a stored item are written and never read back; they are left
    out. The code runs in a page ([window] is defined, [localStorage] is
    there); opening the database and writing to either store succeed. *)
Record World := mkWorld {
  displayStandalone : bool;
  displayFullscreen : bool;
  displayMinimalUI : bool;
  hasServiceWorker : bool;
  hasIndexedDB : bool;
  localStorage_gameStatsMap : option string;
  indexedDB_stats : gmap string StoredStats
}.

Definition set_localStorage (v : option string) (w : World) : World :=
  {| displayStandalone := displayStandalone w;
     displayFullscreen := displayFullscreen w;
     displayMinimalUI := displayMinimalUI w;
     hasServiceWorker := hasServiceWorker w;
     hasIndexedDB := hasIndexedDB w;
     localStorage_gameStatsMap := v;
     indexedDB_stats := indexedDB_stats w |}.

Definition set_indexedDB (d : gmap string StoredStats) (w : World) : World :=
  {| displayStandalone := displayStandalone w;
     displayFullscreen := displayFullscreen w;
     displayMinimalUI := displayMinimalUI w;
     hasServiceWorker := hasServiceWorker w;
     hasIndexedDB := hasIndexedDB w;
     localStorage_gameStatsMap := localStorage_gameStatsMap w;
     indexedDB_stats := d |}.

(** A method runs on its object and the browser. *)
Definition Method (Obj A : Type) : Type := M (Obj * World) A.

(** A free function called from a method. *)
Definition inWorld {Obj A} (m : M World A) : Method Obj A :=
  fun s => let (r, w') := m (snd s) in (r, (fst s, w')).

(** [this.field.method(...)]: the callee runs on the object held by the
    field, which keeps what the callee did to it. *)
Definition onField {Obj Fld A} (fld : Fld) (setf : Fld -> Obj -> Obj)
    (m : Method Fld A) : Method Obj A :=
  fun s =>
    match m (fld, snd s) with
    | (r, (fld', w')) => (r, (setf fld' (fst s), w'))
    end.

(** [const o = new C(); o.method(...)]: the callee runs on a local object,
    dropped afterwards. *)
Definition onLocal {Obj Loc A} (loc : Loc) (m : Method Loc A) : Method Obj A :=
  fun s =>
    match m (loc, snd s) with
    | (r, (_, w')) => (r, (fst s, w'))
    end.

(** ** The engine's JSON functions

    [JSON.stringify(m)], [JSON.stringify(m, null, 2)] and [JSON.parse],
    at the type the sources use them: a dictionary of statistics records.
    [JSON_parse] is [None] where [JSON.parse] throws. Texts that parse to
    a value of another shape are outside this model. *)
Class JSON := {
  JSON_stringify : gmap string StoredStats -> string;
  JSON_stringify_pretty : gmap string StoredStats -> string;
  JSON_parse : string -> option (gmap string StoredStats);
  (** [JSON.parse("")] throws. *)
  JSON_parse_empty : JSON_parse "" = None
}.

(** ** pwaStats.ts, the pure part

    The module carries its own copies of [initializeStats],
    [generateSettingsKey] and [updateStats]; the accuracy is a local
    function of the array there. *)
Module PwaStats.

Definition initializeStats : GameStats :=
  {| totalChallenges := 0;
     recentAnswers := [];
     maxConsecutiveCorrect := 0;
     currentConsecutiveCorrect := 0;
     bestAccuracy := 0 |}.

Definition generateSettingsKey (settings : GameSettings) : string :=
  JS.Number_toString (gridSize settings) +:+ "-" +:+
  JS.Number_toString (showTime settings) +:+ "-" +:+
  JS.Number_toString (answerTime settings) +:+ "-" +:+
  JS.Number_toString (numActiveCells settings).

Definition updateStats (stats : GameStats) (isCorrect : bool) : GameStats :=
  let appended := recentAnswers stats ++ [isCorrect] in
  let newRecentAnswers :=
    if (MAX_RECENT_ANSWERS <? length appended)%nat
    then JS.shift appended else appended in
  let newCurrentConsecutiveCorrect :=
    if isCorrect then currentConsecutiveCorrect stats + 1 else 0 in
  let newMaxConsecutiveCorrect :=
    JS.Math_max (maxConsecutiveCorrect stats) newCurrentConsecutiveCorrect in
  let calculateAccuracy (answers : list bool) : Z :=
    if (length answers =? 0)%nat then 0
    else
      let correctCount :=
        length (List.filter (fun answer => answer) answers) in
      JS.Math_round
        (PrimFloat.mul
           (PrimFloat.div (JS.Number_of_nat correctCount)
                          (JS.Number_of_nat (length answers)))
           (JS.Number_of_nat 100)) in
  let currentAccuracy := calculateAccuracy newRecentAnswers in
  let newBestAccuracy := JS.Math_max (bestAccuracy stats) currentAccuracy in
  {| totalChallenges := totalChallenges stats + 1;
     recentAnswers := newRecentAnswers;
     maxConsecutiveCorrect := newMaxConsecutiveCorrect;
     currentConsecutiveCorrect := newCurrentConsecutiveCorrect;
     bestAccuracy := newBestAccuracy |}.

Definition isPWA (w : World) : bool :=
  (displayStandalone w || displayFullscreen w || displayMinimalUI w)
  && hasServiceWorker w && hasIndexedDB w.

End PwaStats.

Section Storage.
Context `{JSON}.

(** *** gameStats.ts, the flat store *)

Definition getStatsFromStorage : M World (gmap string GameStats) :=
  gets (fun w =>
    match localStorage_gameStatsMap w with
    | Some stored =>
        if decide (stored = "") then ∅
        else match JSON_parse stored with
             | Some statsMap => migrate <$> statsMap
             | None => ∅
             end
    | None => ∅
    end).

Definition saveStatsToStorage (statsMap : gmap string StoredStats)
  : M World unit :=
  modify (set_localStorage (Some (JSON_stringify statsMap))).

Definition getStatsForSettings (statsMap : gmap string GameStats)
    (settings : GameSettings) : GameStats :=
  let key := generateSettingsKey settings in
  default initializeStats (statsMap !! key).

Definition updateStatsForSettings (statsMap : gmap string GameStats)
    (settings : GameSettings) (isCorrect : bool) : gmap string GameStats :=
  let key := generateSettingsKey settings in
  let currentStats := default initializeStats (statsMap !! key) in
  let updatedStats := updateStats currentStats isCorrect in
  <[key := updatedStats]> statsMap.


(** *** pwaStats.ts, [PWAStatsDatabase]

    The object holds the database handle, [null] until [init]. *)
Record PWAStatsDatabase := mkDatabase { db_opened : bool }.

Definition new_PWAStatsDatabase : PWAStatsDatabase :=
  {| db_opened := false |}.

Definition PWAStatsDatabase_init : Method PWAStatsDatabase unit :=
  let* opened := gets (fun s => db_opened (fst s)) in
  if opened then ret tt
  else modify (fun s => ({| db_opened := true |}, snd s)).

Definition requireOpened : Method PWAStatsDatabase unit :=
  let* opened := gets (fun s => db_opened (fst s)) in
  if opened then ret tt else throw "Database not initialized".

Definition PWAStatsDatabase_saveStats (settingsKey : string)
    (stats : StoredStats) : Method PWAStatsDatabase unit :=
  requireOpened ;;
  inWorld (modify (fun w =>
    set_indexedDB (<[settingsKey := stats]> (indexedDB_stats w)) w)).

Definition PWAStatsDatabase_getStats (settingsKey : string)
  : Method PWAStatsDatabase (option GameStats) :=
  requireOpened ;;
  inWorld (gets (fun w => migrate <$> (indexedDB_stats w !! settingsKey))).

Definition PWAStatsDatabase_getAllStats
  : Method PWAStatsDatabase (gmap string GameStats) :=
  requireOpened ;;
  inWorld (gets (fun w => migrate <$> indexedDB_stats w)).

Definition PWAStatsDatabase_deleteStats (settingsKey : string)
  : Method PWAStatsDatabase unit :=
  requireOpened ;;
  inWorld (modify (fun w =>
    set_indexedDB (delete settingsKey (indexedDB_stats w)) w)).

Definition PWAStatsDatabase_clearAllStats : Method PWAStatsDatabase unit :=
  requireOpened ;;
  inWorld (modify (set_indexedDB ∅)).

Definition PWAStatsDatabase_getDatabaseSize : Method PWAStatsDatabase nat :=
  requireOpened ;;
  inWorld (gets (fun w => size (indexedDB_stats w))).

(** *** pwaStats.ts, [PWAStatsManager] *)
Record PWAStatsManager := mkPWAManager {
  pm_db : option PWAStatsDatabase;
  pm_initialized : bool
}.

Definition new_PWAStatsManager : PWAStatsManager :=
  {| pm_db := None; pm_initialized := false |}.

Definition set_pm_db (d : option PWAStatsDatabase) (pm : PWAStatsManager)
  : PWAStatsManager :=
  {| pm_db := d; pm_initialized := pm_initialized pm |}.

Definition set_pm_initialized (b : bool) (pm : PWAStatsManager)
  : PWAStatsManager :=
  {| pm_db := pm_db pm; pm_initialized := b |}.

(** [this.db.method(...)]. *)
Definition onDb {A} (m : Method PWAStatsDatabase A)
  : Method PWAStatsManager A :=
  fun s =>
    match pm_db (fst s) with
    | Some d => onField d (fun d' => set_pm_db (Some d')) m s
    | None => (Thrown "TypeError: this.db is null", s)
    end.

Definition PWAStatsManager_init : Method PWAStatsManager unit :=
  let* initialized := gets (fun s => pm_initialized (fst s)) in
  if initialized then ret tt
  else
    let* pwa := inWorld (gets PwaStats.isPWA) in
    (if pwa then
       modify (fun s => (set_pm_db (Some new_PWAStatsDatabase) (fst s), snd s)) ;;
       onDb PWAStatsDatabase_init
     else ret tt) ;;
    modify (fun s => (set_pm_initialized true (fst s), snd s)).

Definition requireDb : Method PWAStatsManager unit :=
  let* db := gets (fun s => pm_db (fst s)) in
  match db with
  | Some _ => ret tt
  | None => throw "PWA environment not detected"
  end.

Definition PWAStatsManager_saveStats (settings : GameSettings)
    (isCorrect : bool) : Method PWAStatsManager unit :=
  PWAStatsManager_init ;;
  requireDb ;;
  let settingsKey := PwaStats.generateSettingsKey settings in
  let* found := onDb (PWAStatsDatabase_getStats settingsKey) in
  let currentStats := default PwaStats.initializeStats found in
  let updatedStats := PwaStats.updateStats currentStats isCorrect in
  onDb (PWAStatsDatabase_saveStats settingsKey (toStored updatedStats)).

Definition PWAStatsManager_getStats (settings : GameSettings)
  : Method PWAStatsManager GameStats :=
  PWAStatsManager_init ;;
  requireDb ;;
  let settingsKey := PwaStats.generateSettingsKey settings in
  let* stats := onDb (PWAStatsDatabase_getStats settingsKey) in
  ret (default PwaStats.initializeStats stats).

Definition PWAStatsManager_getAllStats
  : Method PWAStatsManager (gmap string GameStats) :=
  PWAStatsManager_init ;;
  requireDb ;;
  onDb PWAStatsDatabase_getAllStats.

Definition PWAStatsManager_exportStats : Method PWAStatsManager string :=
  PWAStatsManager_init ;;
  requireDb ;;
  let* statsMap := onDb PWAStatsDatabase_getAllStats in
  ret (JSON_stringify_pretty (toStored <$> statsMap)).

(** The entries are written in the order [map_to_list] lists them; the
    keys of a dictionary are distinct, so the order of the writes does
    not show in the store. *)
Definition PWAStatsManager_importStats (jsonData : string)
  : Method PWAStatsManager unit :=
  PWAStatsManager_init ;;
  requireDb ;;
  match JSON_parse jsonData with
  | None => throw "SyntaxError"
  | Some statsMap =>
      forEach (map_to_list statsMap) (fun entry =>
        onDb (PWAStatsDatabase_saveStats (fst entry) (snd entry)))
  end.

(** *** unifiedStatsManager.ts *)
Record Environment := mkEnvironment {
  env_isPWA : bool;
  env_isWeb : bool;
  env_hasIndexedDB : bool;
  env_hasLocalStorage : bool;
  env_storageType : string
}.

Definition detectEnvironment (w : World) : Environment :=
  let pwa := PwaStats.isPWA w in
  {| env_isPWA := pwa;
     env_isWeb := negb pwa;
     env_hasIndexedDB := hasIndexedDB w;
     env_hasLocalStorage := true;
     env_storageType := if pwa then "indexeddb" else "localStorage" |}.

Record UnifiedStatsManager := mkUnified {
  um_env : Environment;
  um_pwaManager : option PWAStatsManager;
  um_initialized : bool
}.

(** [new UnifiedStatsManager()]: the environment is detected when the
    object is built. *)
Definition new_UnifiedStatsManager (w : World) : UnifiedStatsManager :=
  {| um_env := detectEnvironment w;
     um_pwaManager := None;
     um_initialized := false |}.

Definition set_um_pwaManager (p : option PWAStatsManager)
    (um : UnifiedStatsManager) : UnifiedStatsManager :=
  {| um_env := um_env um;
     um_pwaManager := p;
     um_initialized := um_initialized um |}.

Definition set_um_initialized (b : bool) (um : UnifiedStatsManager)
  : UnifiedStatsManager :=
  {| um_env := um_env um;
     um_pwaManager := um_pwaManager um;
     um_initialized := b |}.

(** [this.pwaManager.method(...)]. *)
Definition onPwaManager {A} (m : Method PWAStatsManager A)
  : Method UnifiedStatsManager A :=
  fun s =>
    match um_pwaManager (fst s) with
    | Some p => onField p (fun p' => set_um_pwaManager (Some p')) m s
    | None => (Thrown "TypeError: this.pwaManager is null", s)
    end.

(** [this.env.isPWA && this.pwaManager]. *)
Definition usesPwaManager : Method UnifiedStatsManager bool :=
  gets (fun s =>
    env_isPWA (um_env (fst s)) &&
    match um_pwaManager (fst s) with Some _ => true | None => false end).

Definition UnifiedStatsManager_init : Method UnifiedStatsManager unit :=
  let* initialized := gets (fun s => um_initialized (fst s)) in
  if initialized then ret tt
  else
    let* pwa := gets (fun s => env_isPWA (um_env (fst s))) in
    (if pwa then
       modify (fun s =>
         (set_um_pwaManager (Some new_PWAStatsManager) (fst s), snd s)) ;;
       onPwaManager PWAStatsManager_init
     else ret tt) ;;
    modify (fun s => (set_um_initialized true (fst s), snd s)).

Definition UnifiedStatsManager_saveStats (settings : GameSettings)
    (isCorrect : bool) : Method UnifiedStatsManager unit :=
  UnifiedStatsManager_init ;;
  let* pwa := usesPwaManager in
  if pwa then onPwaManager (PWAStatsManager_saveStats settings isCorrect)
  else
    let* statsMap := inWorld getStatsFromStorage in
    let updatedStatsMap :=
      updateStatsForSettings statsMap settings isCorrect in
    inWorld (saveStatsToStorage (toStored <$> updatedStatsMap)).

(** In the branch of the structured store the source sets a missing
    [bestAccuracy] once more; [PWAStatsManager_getStats] already returns
    a record with the field, so nothing is left to do there. *)
Definition UnifiedStatsManager_getStats (settings : GameSettings)
  : Method UnifiedStatsManager GameStats :=
  UnifiedStatsManager_init ;;
  let* pwa := usesPwaManager in
  if pwa then onPwaManager (PWAStatsManager_getStats settings)
  else
    let* statsMap := inWorld getStatsFromStorage in
    ret (getStatsForSettings statsMap settings).

Definition UnifiedStatsManager_getAllStats
  : Method UnifiedStatsManager (gmap string GameStats) :=
  UnifiedStatsManager_init ;;
  let* pwa := usesPwaManager in
  if pwa then onPwaManager PWAStatsManager_getAllStats
  else inWorld getStatsFromStorage.

Definition UnifiedStatsManager_exportStats
  : Method UnifiedStatsManager string :=
  UnifiedStatsManager_init ;;
  let* pwa := usesPwaManager in
  if pwa then onPwaManager PWAStatsManager_exportStats
  else
    let* statsMap := inWorld getStatsFromStorage in
    ret (JSON_stringify_pretty (toStored <$> statsMap)).

Definition UnifiedStatsManager_importStats (jsonData : string)
  : Method UnifiedStatsManager unit :=
  UnifiedStatsManager_init ;;
  let* pwa := usesPwaManager in
  if pwa then onPwaManager (PWAStatsManager_importStats jsonData)
  else
    match JSON_parse jsonData with
    | None => throw "SyntaxError"
    | Some statsMap => inWorld (saveStatsToStorage statsMap)
    end.

(** In the branch of the structured store the source builds a second
    [PWAStatsManager], initialises it and stops there, under the comment
    that a clearing function remains to be added. *)
Definition UnifiedStatsManager_clearAllStats
  : Method UnifiedStatsManager unit :=
  UnifiedStatsManager_init ;;
  let* pwa := usesPwaManager in
  if pwa then onLocal new_PWAStatsManager PWAStatsManager_init
  else inWorld (modify (set_localStorage None)).

(** The manager once [init] has run: in the installed application it
    holds a [PWAStatsManager] with an open database. *)
Definition readyPWAStatsManager : PWAStatsManager :=
  {| pm_db := Some {| db_opened := true |}; pm_initialized := true |}.

Definition readyManager (w : World) : UnifiedStatsManager :=
  {| um_env := detectEnvironment w;
     um_pwaManager :=
       if PwaStats.isPWA w then Some readyPWAStatsManager else None;
     um_initialized := true |}.

(** The statistics map the active backend holds, as its readers return
    it. *)
Definition flatStats (w : World) : gmap string GameStats :=
  match getStatsFromStorage w with
  | (Ok statsMap, _) => statsMap
  | (Thrown _, _) => ∅
  end.

Definition structuredStats (w : World) : gmap string GameStats :=
  migrate <$> indexedDB_stats w.

Definition activeStats (w : World) : gmap string GameStats :=
  if PwaStats.isPWA w then structuredStats w else flatStats w.

(** A session: a manager built in the browser [w], then a method. *)
Definition session {A} (w : World) (m : Method UnifiedStatsManager A)
  : Result A * (UnifiedStatsManager * World) :=
  m (new_UnifiedStatsManager w, w).

End Storage.

(** ** unifiedStatsManager.ts, the remaining methods *)

(** [try { body } catch (error) { handler }]. *)
Definition tryCatch {St A} (body : M St A) (handler : string -> M St A)
  : M St A :=
  fun s =>
    match body s with
    | (Ok a, s') => (Ok a, s')
    | (Thrown e, s') => handler e s'
    end.

(** The envelope of a backup. *)
Record Backup := mkBackup {
  backup_data : string;
  backup_timestamp : string;
  backup_environment : string
}.

Section Maintenance.
Context `{JSON}.

(** The copy from a browser tab builds a [PWAStatsManager] of its own and
    imports into it; whatever that throws is logged and dropped. *)
Definition UnifiedStatsManager_syncDataBetweenEnvironments
  : Method UnifiedStatsManager unit :=
  UnifiedStatsManager_init ;;
  let* pwa := usesPwaManager in
  if pwa then
    let* pwaStats := onPwaManager PWAStatsManager_getAllStats in
    inWorld (saveStatsToStorage (toStored <$> pwaStats))
  else
    let* hasIndexedDB := gets (fun s => env_hasIndexedDB (um_env (fst s))) in
    if hasIndexedDB then
      let* webStats := inWorld getStatsFromStorage in
      if (0 <? size webStats)%nat then
        tryCatch
          (onLocal new_PWAStatsManager
             (PWAStatsManager_init ;;
              PWAStatsManager_importStats
                (JSON_stringify (toStored <$> webStats))))
          (fun _ => ret tt)
      else ret tt
    else ret tt.

Definition UnifiedStatsManager_getDatabaseSize
  : Method UnifiedStatsManager nat :=
  UnifiedStatsManager_init ;;
  let* pwa := usesPwaManager in
  if pwa then
    let* statsMap := onPwaManager PWAStatsManager_getAllStats in
    ret (size statsMap)
  else
    let* statsMap := inWorld getStatsFromStorage in
    ret (size statsMap).

(** [statsMap[settingsKey] || null]. *)
Definition UnifiedStatsManager_getStatsByKey (settingsKey : string)
  : Method UnifiedStatsManager (option GameStats) :=
  UnifiedStatsManager_init ;;
  let* pwa := usesPwaManager in
  if pwa then
    let* statsMap := onPwaManager PWAStatsManager_getAllStats in
    ret (statsMap !! settingsKey)
  else
    let* statsMap := inWorld getStatsFromStorage in
    ret (statsMap !! settingsKey).

(** [now] is the text [new Date().toISOString()] gives when the backup is
    made. *)
Definition UnifiedStatsManager_createBackup (now : string)
  : Method UnifiedStatsManager Backup :=
  UnifiedStatsManager_init ;;
  let* data := UnifiedStatsManager_exportStats in
  let timestamp := now in
  let* pwa := gets (fun s => env_isPWA (um_env (fst s))) in
  let environment := if pwa then "pwa" else "web" in
  ret {| backup_data := data;
         backup_timestamp := timestamp;
         backup_environment := environment |}.

(** The log line written at the end has no effect on the stores. *)
Definition UnifiedStatsManager_restoreFromBackup (backup : Backup)
  : Method UnifiedStatsManager unit :=
  UnifiedStatsManager_init ;;
  UnifiedStatsManager_importStats (backup_data backup).

End Maintenance.

(** ** gameSettings.ts, the stores

    The settings live beside the statistics: the [gameSettings] item of
    [localStorage], and the item [current] of the [settings] object store
    of the [GameSettingsDB] database. [page] holds the capabilities of the
    browser, [now] the text [new Date().toISOString()] gives. The
    [lastUpdated] and [version] fields of what is stored are never read
    back; the object store keeps the settings of its item. *)
Record SettingsBrowser := mkSettingsBrowser {
  page : World;
  now : string;
  localStorage_gameSettings : option string;
  indexedDB_settings : option GameSettings
}.

Definition set_localStorage_gameSettings (v : option string)
    (b : SettingsBrowser) : SettingsBrowser :=
  {| page := page b;
     now := now b;
     localStorage_gameSettings := v;
     indexedDB_settings := indexedDB_settings b |}.

Definition set_indexedDB_settings (v : option GameSettings)
    (b : SettingsBrowser) : SettingsBrowser :=
  {| page := page b;
     now := now b;
     localStorage_gameSettings := localStorage_gameSettings b;
     indexedDB_settings := v |}.

(** A method of the settings classes runs on its object and the
    browser. *)
Definition SettingsMethod (Obj A : Type) : Type := M (Obj * SettingsBrowser) A.

Definition inBrowser {Obj A} (m : M SettingsBrowser A) : SettingsMethod Obj A :=
  fun s => let (r, b') := m (snd s) in (r, (fst s, b')).

Definition onMember {Obj Fld A} (fld : Fld) (setf : Fld -> Obj -> Obj)
    (m : SettingsMethod Fld A) : SettingsMethod Obj A :=
  fun s =>
    match m (fld, snd s) with
    | (r, (fld', b')) => (r, (setf fld' (fst s), b'))
    end.

(** The engine's JSON functions at the types the settings module uses
    them: the text of the stored envelope
    [{settings, lastUpdated, version}] and the [settings] read back from
    such a text ([None] when the parse throws or the value has no
    [settings] object), the indented text of a settings record and the
    settings object a payload parses to ([None] when the parse throws or
    gives [null]). *)
Class SettingsJSON := {
  JSON_stringify_data : GameSettings -> string -> string;
  JSON_parse_data : string -> option PartialGameSettings;
  JSON_stringify_settings : GameSettings -> string;
  JSON_parse_settings : string -> option PartialGameSettings;
  JSON_parse_data_empty : JSON_parse_data "" = None
}.

Section Settings.
Context `{SettingsJSON}.

Definition loadSettingsFromStorage : M SettingsBrowser GameSettings :=
  gets (fun b =>
    match localStorage_gameSettings b with
    | Some stored =>
        if decide (stored = "") then DEFAULT_SETTINGS
        else match JSON_parse_data stored with
             | Some settings => validateSettings settings
             | None => DEFAULT_SETTINGS
             end
    | None => DEFAULT_SETTINGS
    end).

Definition saveSettingsToStorage (settings : GameSettings)
  : M SettingsBrowser unit :=
  modify (fun b =>
    set_localStorage_gameSettings
      (Some (JSON_stringify_data settings (now b))) b).

(** *** [PWASettingsManager] *)
Record PWASettingsManager := mkPWASettings { psm_opened : bool }.

Definition new_PWASettingsManager : PWASettingsManager :=
  {| psm_opened := false |}.

Definition PWASettingsManager_init : SettingsMethod PWASettingsManager unit :=
  let* opened := gets (fun s => psm_opened (fst s)) in
  if opened then ret tt
  else modify (fun s => ({| psm_opened := true |}, snd s)).

Definition requireSettingsDb : SettingsMethod PWASettingsManager unit :=
  let* opened := gets (fun s => psm_opened (fst s)) in
  if opened then ret tt else throw "Settings database not initialized".

Definition PWASettingsManager_saveSettings (settings : GameSettings)
  : SettingsMethod PWASettingsManager unit :=
  requireSettingsDb ;;
  inBrowser (modify (set_indexedDB_settings (Some settings))).

Definition PWASettingsManager_loadSettings
  : SettingsMethod PWASettingsManager GameSettings :=
  requireSettingsDb ;;
  inBrowser (gets (fun b =>
    match indexedDB_settings b with
    | Some settings => validateSettings (complete settings)
    | None => DEFAULT_SETTINGS
    end)).

Definition PWASettingsManager_exportSettings
  : SettingsMethod PWASettingsManager string :=
  requireSettingsDb ;;
  let* settings := PWASettingsManager_loadSettings in
  ret (JSON_stringify_settings settings).

Definition PWASettingsManager_importSettings (jsonData : string)
  : SettingsMethod PWASettingsManager unit :=
  requireSettingsDb ;;
  match JSON_parse_settings jsonData with
  | None => throw "SyntaxError"
  | Some settings =>
      PWASettingsManager_saveSettings (validateSettings settings)
  end.

(** *** [UnifiedSettingsManager] *)
Record UnifiedSettingsManager := mkUnifiedSettings {
  usm_pwaManager : option PWASettingsManager;
  usm_initialized : bool
}.

Definition new_UnifiedSettingsManager : UnifiedSettingsManager :=
  {| usm_pwaManager := None; usm_initialized := false |}.

Definition set_usm_pwaManager (p : option PWASettingsManager)
    (m : UnifiedSettingsManager) : UnifiedSettingsManager :=
  {| usm_pwaManager := p; usm_initialized := usm_initialized m |}.

Definition set_usm_initialized (i : bool) (m : UnifiedSettingsManager)
  : UnifiedSettingsManager :=
  {| usm_pwaManager := usm_pwaManager m; usm_initialized := i |}.

(** The test of [UnifiedSettingsManager.init]: the standalone display
    mode only. *)
Definition settingsIsPWA (w : World) : bool :=
  displayStandalone w && hasServiceWorker w && hasIndexedDB w.

(** [this.pwaManager.method(...)]. *)
Definition onSettingsPwaManager {A} (m : SettingsMethod PWASettingsManager A)
  : SettingsMethod UnifiedSettingsManager A :=
  fun s =>
    match usm_pwaManager (fst s) with
    | Some p => onMember p (fun p' => set_usm_pwaManager (Some p')) m s
    | None => (Thrown "TypeError: this.pwaManager is null", s)
    end.

(** [if (this.pwaManager)]. *)
Definition hasSettingsPwaManager : SettingsMethod UnifiedSettingsManager bool :=
  gets (fun s =>
    match usm_pwaManager (fst s) with Some _ => true | None => false end).

Definition UnifiedSettingsManager_init
  : SettingsMethod UnifiedSettingsManager unit :=
  let* initialized := gets (fun s => usm_initialized (fst s)) in
  if initialized then ret tt
  else
    let* pwa := gets (fun s => settingsIsPWA (page (snd s))) in
    (if pwa then
       modify (fun s =>
         (set_usm_pwaManager (Some new_PWASettingsManager) (fst s), snd s)) ;;
       onSettingsPwaManager PWASettingsManager_init
     else ret tt) ;;
    modify (fun s => (set_usm_initialized true (fst s), snd s)).

Definition UnifiedSettingsManager_saveSettings (settings : GameSettings)
  : SettingsMethod UnifiedSettingsManager unit :=
  UnifiedSettingsManager_init ;;
  let* pwa := hasSettingsPwaManager in
  if pwa
  then onSettingsPwaManager (PWASettingsManager_saveSettings settings)
  else inBrowser (saveSettingsToStorage settings).

Definition UnifiedSettingsManager_loadSettings
  : SettingsMethod UnifiedSettingsManager GameSettings :=
  UnifiedSettingsManager_init ;;
  let* pwa := hasSettingsPwaManager in
  if pwa then onSettingsPwaManager PWASettingsManager_loadSettings
  else inBrowser loadSettingsFromStorage.

Definition UnifiedSettingsManager_exportSettings
  : SettingsMethod UnifiedSettingsManager string :=
  UnifiedSettingsManager_init ;;
  let* pwa := hasSettingsPwaManager in
  if pwa then onSettingsPwaManager PWASettingsManager_exportSettings
  else
    let* settings := inBrowser loadSettingsFromStorage in
    ret (JSON_stringify_settings settings).

Definition UnifiedSettingsManager_importSettings (jsonData : string)
  : SettingsMethod UnifiedSettingsManager unit :=
  UnifiedSettingsManager_init ;;
  let* pwa := hasSettingsPwaManager in
  if pwa
  then onSettingsPwaManager (PWASettingsManager_importSettings jsonData)
  else
    match JSON_parse_settings jsonData with
    | None => throw "SyntaxError"
    | Some settings =>
        inBrowser (saveSettingsToStorage (validateSettings settings))
    end.


(** The settings manager once [init] has run. *)
Definition readySettingsManager (b : SettingsBrowser) : UnifiedSettingsManager :=
  {| usm_pwaManager :=
       if settingsIsPWA (page b) then Some {| psm_opened := true |} else None;
     usm_initialized := true |}.

(** A session of the settings manager: a manager built in the browser
    [b], then a method. *)
Definition settingsSession {A} (b : SettingsBrowser)
    (m : SettingsMethod UnifiedSettingsManager A)
  : Result A * (UnifiedSettingsManager * SettingsBrowser) :=
  m (new_UnifiedSettingsManager, b).

End Settings.

(** ** GridMemoryGame.tsx, the state of a game

    The game state the page owns and the component updates through
    [onGameStateUpdate], which merges the fields it is given into the
    state. *)
Record GameState := mkGameState {
  state_gridSize : Z;
  state_showTime : Z;
  state_answerTime : Z;
  state_numActiveCells : Z;
  state_targetConsecutive : Z;
  state_consecutiveCorrect : Z;
  state_targetAchieved : bool
}.

(** [onGameStateUpdate({ numActiveCells })]. *)
Definition update_numActiveCells (n : Z) (st : GameState) : GameState :=
  {| state_gridSize := state_gridSize st;
     state_showTime := state_showTime st;
     state_answerTime := state_answerTime st;
     state_numActiveCells := n;
     state_targetConsecutive := state_targetConsecutive st;
     state_consecutiveCorrect := state_consecutiveCorrect st;
     state_targetAchieved := state_targetAchieved st |}.

(** [onGameStateUpdate({ consecutiveCorrect, targetAchieved })]. *)
Definition update_streak (consecutive : Z) (achieved : bool) (st : GameState)
  : GameState :=
  {| state_gridSize := state_gridSize st;
     state_showTime := state_showTime st;
     state_answerTime := state_answerTime st;
     state_numActiveCells := state_numActiveCells st;
     state_targetConsecutive := state_targetConsecutive st;
     state_consecutiveCorrect := consecutive;
     state_targetAchieved := achieved |}.

(** [onGameStateUpdate] with the five validated settings. *)
Definition update_settings (validated : GameSettings) (st : GameState)
  : GameState :=
  {| state_gridSize := gridSize validated;
     state_showTime := showTime validated;
     state_answerTime := answerTime validated;
     state_numActiveCells := numActiveCells validated;
     state_targetConsecutive := targetConsecutive validated;
     state_consecutiveCorrect := state_consecutiveCorrect st;
     state_targetAchieved := state_targetAchieved st |}.

(** The effect that follows a change of [gridSize] or [numActiveCells]. *)
Definition adjustActiveCells (st : GameState) : GameState :=
  let maxCells := state_gridSize st * state_gridSize st in
  if maxCells <? state_numActiveCells st
  then update_numActiveCells maxCells st
  else st.

(** [applySettings], on the game state: the values of the form are
    validated and sent up; when one of them changed, the streak starts
    over. *)
Definition applySettings (temp : GameSettings) (st : GameState) : GameState :=
  let validatedSettings := validateSettings (complete temp) in
  let isSettingsChanged :=
    negb (gridSize validatedSettings =? state_gridSize st)
    || negb (showTime validatedSettings =? state_showTime st)
    || negb (answerTime validatedSettings =? state_answerTime st)
    || negb (numActiveCells validatedSettings =? state_numActiveCells st)
    || negb (targetConsecutive validatedSettings =? state_targetConsecutive st)
  in
  let st' := update_settings validatedSettings st in
  if isSettingsChanged then update_streak 0 false st' else st'.

(** [solution.every((cell, index) => cell === userGrid[index])]: a cell
    the user grid does not have compares unequal. *)
Fixpoint everyCellMatches (solution userGrid : list bool) : bool :=
  match solution, userGrid with
  | [], _ => true
  | cell :: solution', mark :: userGrid' =>
      Bool.eqb cell mark && everyCellMatches solution' userGrid'
  | _ :: _, [] => false
  end.

(** [checkAnswer]: what is reported to [onStatsUpdate], if anything, and
    the game state after. *)
Definition checkAnswer (solution userGrid : list bool) (isRetryMode : bool)
    (st : GameState) : option bool * GameState :=
  let isCorrect := everyCellMatches solution userGrid in
  if isRetryMode then (None, st)
  else
    (Some isCorrect,
     if isCorrect then
       let newConsecutive := state_consecutiveCorrect st + 1 in
       if (state_targetConsecutive st <=? newConsecutive)
          && negb (state_targetAchieved st)
       then update_streak 0 true st
       else update_streak newConsecutive false st
     else update_streak 0 false st).

(** A round: the pattern shown, the cells the player marked, and whether
    the round is a retry of the previous pattern. *)
Definition Round : Type := list bool * list bool * bool.

(** The rounds of a game, in order: the outcomes reported to the
    statistics and the final game state. *)
Definition playRounds (rounds : list Round) (st : GameState)
  : list bool * GameState :=
  foldl (fun acc round =>
           match round with
           | (solution, userGrid, isRetryMode) =>
               match checkAnswer solution userGrid isRetryMode (snd acc) with
               | (Some isCorrect, st') => (fst acc ++ [isCorrect], st')
               | (None, st') => (fst acc, st')
               end
           end)
        ([], st) rounds.

(** ** A reference implementation of the JSON functions

    A printer and a parser for dictionaries of statistics records, in the
    engine's two layouts (compact, and indented by two spaces). It
    instantiates [JSON] wherever a statement is evaluated on concrete
    stores and payloads. *)
Module RefJSON.

Definition dquote : Ascii.ascii := "034"%char.
Definition backslash : Ascii.ascii := "092"%char.
Definition newline : Ascii.ascii := "010"%char.

Definition str (c : ascii) : string := String c EmptyString.

Fixpoint escape (s : string) : string :=
  match s with
  | EmptyString => EmptyString
  | String c rest =>
      if decide (c = dquote \/ c = backslash)
      then String backslash (String c (escape rest))
      else String c (escape rest)
  end.

Definition quoted (s : string) : string :=
  str dquote +:+ escape s +:+ str dquote.

Fixpoint spaces (n : nat) : string :=
  match n with
  | O => EmptyString
  | S k => String " " (spaces k)
  end.

Section Printer.
(** [indented] selects the layout of [JSON.stringify(_, null, 2)]. *)
Variable indented : bool.

Definition line (depth : nat) : string :=
  if indented then str newline +:+ spaces (2 * depth) else EmptyString.

Definition colon : string := if indented then ": " else ":".

Fixpoint separated (depth : nat) (items : list string) : string :=
  match items with
  | [] => EmptyString
  | [x] => line depth +:+ x
  | x :: rest => line depth +:+ x +:+ "," +:+ separated depth rest
  end.

Definition enclosed (opening closing : string) (depth : nat)
    (items : list string) : string :=
  match items with
  | [] => opening +:+ closing
  | _ => opening +:+ separated (S depth) items +:+ line depth +:+ closing
  end.

Definition print_bool (b : bool) : string :=
  if b then "true" else "false".

Definition print_field (name value : string) : string :=
  quoted name +:+ colon +:+ value.

Definition print_record (depth : nat) (o : StoredStats) : string :=
  enclosed "{" "}" depth
    ([ print_field "totalChallenges"
         (JS.Number_toString (stored_totalChallenges o));
       print_field "recentAnswers"
         (enclosed "[" "]" (S depth)
            (print_bool <$> stored_recentAnswers o));
       print_field "maxConsecutiveCorrect"
         (JS.Number_toString (stored_maxConsecutiveCorrect o));
       print_field "currentConsecutiveCorrect"
         (JS.Number_toString (stored_currentConsecutiveCorrect o)) ]
     ++ match stored_bestAccuracy o with
        | Some b => [ print_field "bestAccuracy" (JS.Number_toString b) ]
        | None => []
        end).

Definition print (m : gmap string StoredStats) : string :=
  enclosed "{" "}" 0
    ((fun entry => print_field (fst entry) (print_record 1 (snd entry)))
       <$> map_to_list m).
End Printer.

(** *** Tokens *)
Inductive token :=
| TLBrace | TRBrace | TLBracket | TRBracket | TColon | TComma
| TString (s : string)
| TNumber (n : Z)
| TWord (s : string).

Inductive lexer :=
| Idle
| InString (acc : string) (escaped : bool)
| InNumber (negative : bool) (digits : option Z)
| InWord (acc : string).

Definition digit_of (c : ascii) : option Z :=
  let n := Z.of_nat (nat_of_ascii c) in
  if (48 <=? n) && (n <=? 57) then Some (n - 48) else None.

Definition is_letter (c : ascii) : bool :=
  let n := Z.of_nat (nat_of_ascii c) in (97 <=? n) && (n <=? 122).

Definition is_space (c : ascii) : bool :=
  let n := Z.of_nat (nat_of_ascii c) in
  (n =? 32) || (n =? 10) || (n =? 13) || (n =? 9).

Definition snoc (s : string) (c : ascii) : string := s +:+ str c.

(** What the pending state contributes when a token ends. *)
Definition flush (st : lexer) : option (list token) :=
  match st with
  | Idle => Some []
  | InString _ _ => None
  | InNumber negative (Some n) =>
      Some [TNumber (if negative then - n else n)]
  | InNumber _ None => None
  | InWord w => Some [TWord w]
  end.

Definition start (c : ascii) : option (lexer * list token) :=
  if is_space c then Some (Idle, [])
  else if decide (c = "{"%char) then Some (Idle, [TLBrace])
  else if decide (c = "}"%char) then Some (Idle, [TRBrace])
  else if decide (c = "["%char) then Some (Idle, [TLBracket])
  else if decide (c = "]"%char) then Some (Idle, [TRBracket])
  else if decide (c = ":"%char) then Some (Idle, [TColon])
  else if decide (c = ","%char) then Some (Idle, [TComma])
  else if decide (c = dquote) then Some (InString EmptyString false, [])
  else if decide (c = "-"%char) then Some (InNumber true None, [])
  else match digit_of c with
       | Some d => Some (InNumber false (Some d), [])
       | None => if is_letter c then Some (InWord (str c), []) else None
       end.

Definition restart (st : lexer) (c : ascii) : option (lexer * list token) :=
  match flush st, start c with
  | Some done, Some (st', more) => Some (st', done ++ more)
  | _, _ => None
  end.

Definition step (st : lexer) (c : ascii) : option (lexer * list token) :=
  match st with
  | Idle => start c
  | InString acc true => Some (InString (snoc acc c) false, [])
  | InString acc false =>
      if decide (c = backslash) then Some (InString acc true, [])
      else if decide (c = dquote) then Some (Idle, [TString acc])
      else Some (InString (snoc acc c) false, [])
  | InNumber negative digits =>
      match digit_of c with
      | Some d =>
          Some (InNumber negative (Some (10 * default 0 digits + d)), [])
      | None => restart st c
      end
  | InWord acc =>
      if is_letter c then Some (InWord (snoc acc c), []) else restart st c
  end.

Fixpoint lex (st : lexer) (s : string) : option (list token) :=
  match s with
  | EmptyString => flush st
  | String c rest =>
      match step st c with
      | Some (st', emitted) =>
          match lex st' rest with
          | Some ts => Some (emitted ++ ts)
          | None => None
          end
      | None => None
      end
  end.

(** *** The grammar of a statistics dictionary *)
Inductive value :=
| VNumber (n : Z)
| VBools (l : list bool).

Fixpoint parse_bools (ts : list token) : option (list bool * list token) :=
  match ts with
  | TWord w :: TComma :: rest =>
      match parse_bools rest with
      | Some (l, rest') =>
          if decide (w = "true") then Some (true :: l, rest')
          else if decide (w = "false") then Some (false :: l, rest')
          else None
      | None => None
      end
  | TWord w :: TRBracket :: rest =>
      if decide (w = "true") then Some ([true], rest)
      else if decide (w = "false") then Some ([false], rest)
      else None
  | _ => None
  end.

Definition parse_value (ts : list token) : option (value * list token) :=
  match ts with
  | TNumber n :: rest => Some (VNumber n, rest)
  | TLBracket :: TRBracket :: rest => Some (VBools [], rest)
  | TLBracket :: rest =>
      match parse_bools rest with
      | Some (l, rest') => Some (VBools l, rest')
      | None => None
      end
  | _ => None
  end.

(** The members of an object after its opening brace, each read by
    [member]; [fuel] bounds the number of members. *)
Fixpoint parse_members {A} (member : list token -> option (A * list token))
    (fuel : nat) (ts : list token)
  : option (list (string * A) * list token) :=
  match fuel with
  | O => None
  | S fuel' =>
      match ts with
      | TString name :: TColon :: rest =>
          match member rest with
          | Some (v, TComma :: rest') =>
              match parse_members member fuel' rest' with
              | Some (l, rest'') => Some ((name, v) :: l, rest'')
              | None => None
              end
          | Some (v, TRBrace :: rest') => Some ([(name, v)], rest')
          | _ => None
          end
      | _ => None
      end
  end.

Definition parse_object {A} (member : list token -> option (A * list token))
    (ts : list token) : option (list (string * A) * list token) :=
  match ts with
  | TLBrace :: TRBrace :: rest => Some ([], rest)
  | TLBrace :: rest => parse_members member (length rest) rest
  | _ => None
  end.

(** A repeated name keeps its last value, as in the engine. *)
Definition field (name : string) (fields : list (string * value))
  : option value :=
  (list_to_map (reverse fields) : gmap string value) !! name.

Definition number_field (name : string) (fields : list (string * value))
  : option Z :=
  match field name fields with
  | Some (VNumber n) => Some n
  | _ => None
  end.

Definition record_of (fields : list (string * value)) : option StoredStats :=
  match number_field "totalChallenges" fields,
        field "recentAnswers" fields,
        number_field "maxConsecutiveCorrect" fields,
        number_field "currentConsecutiveCorrect" fields,
        field "bestAccuracy" fields with
  | Some t, Some (VBools l), Some mx, Some cur, None =>
      Some (mkStored t l mx cur None)
  | Some t, Some (VBools l), Some mx, Some cur, Some (VNumber b) =>
      Some (mkStored t l mx cur (Some b))
  | _, _, _, _, _ => None
  end.

Definition parse_record (ts : list token)
  : option (StoredStats * list token) :=
  match parse_object parse_value ts with
  | Some (fields, rest) =>
      match record_of fields with
      | Some o => Some (o, rest)
      | None => None
      end
  | None => None
  end.

Definition parse (s : string) : option (gmap string StoredStats) :=
  match lex Idle s with
  | Some ts =>
      match parse_object parse_record ts with
      | Some (entries, []) => Some (list_to_map (reverse entries))
      | _ => None
      end
  | None => None
  end.

Definition json : JSON :=
  {| JSON_stringify := print false;
     JSON_stringify_pretty := print true;
     JSON_parse := parse;
     JSON_parse_empty := eq_refl |}.

End RefJSON.

(** ** A reference implementation of the JSON functions of the settings

    The same printer and tokens, for a settings record and for the stored
    envelope. *)
Module RefSettingsJSON.

Definition print_settings (indented : bool) (depth : nat) (s : GameSettings)
  : string :=
  RefJSON.enclosed indented "{" "}" depth
    [ RefJSON.print_field indented "gridSize"
        (JS.Number_toString (gridSize s));
      RefJSON.print_field indented "showTime"
        (JS.Number_toString (showTime s));
      RefJSON.print_field indented "answerTime"
        (JS.Number_toString (answerTime s));
      RefJSON.print_field indented "numActiveCells"
        (JS.Number_toString (numActiveCells s));
      RefJSON.print_field indented "targetConsecutive"
        (JS.Number_toString (targetConsecutive s)) ].

Definition print_data (s : GameSettings) (lastUpdated : string) : string :=
  RefJSON.enclosed false "{" "}" 0
    [ RefJSON.print_field false "settings" (print_settings false 1 s);
      RefJSON.print_field false "lastUpdated" (RefJSON.quoted lastUpdated);
      RefJSON.print_field false "version" (RefJSON.quoted "1.0.0") ].

Definition parse_number (ts : list RefJSON.token)
  : option (Z * list RefJSON.token) :=
  match ts with
  | RefJSON.TNumber n :: rest => Some (n, rest)
  | _ => None
  end.

(** A repeated name keeps its last value; a name that is not there gives
    an absent field. *)
Definition settings_of (fields : list (string * Z)) : PartialGameSettings :=
  let m : gmap string Z := list_to_map (reverse fields) in
  {| gridSize_opt := m !! "gridSize";
     showTime_opt := m !! "showTime";
     answerTime_opt := m !! "answerTime";
     numActiveCells_opt := m !! "numActiveCells";
     targetConsecutive_opt := m !! "targetConsecutive" |}.

Definition parse_settings_tokens (ts : list RefJSON.token)
  : option (PartialGameSettings * list RefJSON.token) :=
  match RefJSON.parse_object parse_number ts with
  | Some (fields, rest) => Some (settings_of fields, rest)
  | None => None
  end.

Definition parse_settings (s : string) : option PartialGameSettings :=
  match RefJSON.lex RefJSON.Idle s with
  | Some ts =>
      match parse_settings_tokens ts with
      | Some (settings, []) => Some settings
      | _ => None
      end
  | None => None
  end.

Inductive member :=
| MSettings (settings : PartialGameSettings)
| MText (text : string).

Definition parse_member (ts : list RefJSON.token)
  : option (member * list RefJSON.token) :=
  match ts with
  | RefJSON.TString text :: rest => Some (MText text, rest)
  | _ =>
      match parse_settings_tokens ts with
      | Some (settings, rest) => Some (MSettings settings, rest)
      | None => None
      end
  end.

Definition parse_data (s : string) : option PartialGameSettings :=
  match RefJSON.lex RefJSON.Idle s with
  | Some ts =>
      match RefJSON.parse_object parse_member ts with
      | Some (members, []) =>
          match (list_to_map (reverse members) : gmap string member)
                  !! "settings" with
          | Some (MSettings settings) => Some settings
          | _ => None
          end
      | _ => None
      end
  | None => None
  end.

Definition json : SettingsJSON :=
  {| JSON_stringify_data := print_data;
     JSON_parse_data := parse_data;
     JSON_stringify_settings := print_settings true 0;
     JSON_parse_settings := parse_settings;
     JSON_parse_data_empty := eq_refl |}.

End RefSettingsJSON.

(** ** Concrete stores

    A store and a payload with one record each, under different
    fingerprints, and the two kinds of browser. *)
Module Scenario.

(** A record of the current shape and one that precedes
    [bestAccuracy]. *)
Definition played : StoredStats :=
  toStored (recordAnswers initializeStats [true; true; false; true]).

Definition legacy : StoredStats :=
  {| stored_totalChallenges := 3;
     stored_recentAnswers := [true; false; true];
     stored_maxConsecutiveCorrect := 1;
     stored_currentConsecutiveCorrect := 1;
     stored_bestAccuracy := None |}.

Definition easy : GameSettings := mkGameSettings 4 500 0 5 20.
Definition hard : GameSettings := mkGameSettings 5 500 0 5 20.

Definition stored : gmap string StoredStats :=
  {[ generateSettingsKey easy := played ]}.

Definition incoming : gmap string StoredStats :=
  {[ generateSettingsKey hard := legacy ]}.

(** A browser tab whose flat store holds [m]. *)
Definition browserTab (m : gmap string StoredStats) : World :=
  {| displayStandalone := false;
     displayFullscreen := false;
     displayMinimalUI := false;
     hasServiceWorker := true;
     hasIndexedDB := true;
     localStorage_gameStatsMap := Some (RefJSON.print false m);
     indexedDB_stats := ∅ |}.

(** A browser tab that never stored anything. *)
Definition newTab : World :=
  {| displayStandalone := false;
     displayFullscreen := false;
     displayMinimalUI := false;
     hasServiceWorker := true;
     hasIndexedDB := true;
     localStorage_gameStatsMap := None;
     indexedDB_stats := ∅ |}.

(** The installed application whose structured store holds [m]. *)
Definition installedApp (m : gmap string StoredStats) : World :=
  {| displayStandalone := true;
     displayFullscreen := false;
     displayMinimalUI := false;
     hasServiceWorker := true;
     hasIndexedDB := true;
     localStorage_gameStatsMap := None;
     indexedDB_stats := m |}.

(** The installed application shown fullscreen. *)
Definition fullscreenApp : World :=
  {| displayStandalone := false;
     displayFullscreen := true;
     displayMinimalUI := false;
     hasServiceWorker := true;
     hasIndexedDB := true;
     localStorage_gameStatsMap := None;
     indexedDB_stats := ∅ |}.

(** The settings stores of a browser: nothing stored yet, at a given
    instant. *)
Definition settingsBrowser (w : World) : SettingsBrowser :=
  {| page := w;
     now := "2025-01-01T00:00:00.000Z";
     localStorage_gameSettings := None;
     indexedDB_settings := None |}.

(** Settings within the ranges, and settings far outside them. *)
Definition large : GameSettings := mkGameSettings 6 1500 0 30 10.
Definition wild : GameSettings := mkGameSettings 40 5 (-3) 500 0.

Definition run {A} (w : World) (m : Method UnifiedStatsManager A) : Result A :=
  fst (session w m).

End Scenario.


(** ** Vocabulary of the statements *)

(** A text free of the separator of the fingerprint. *)
Fixpoint dashFree (s : string) : Prop :=
  match s with
  | EmptyString => True
  | String c rest => c <> "-"%char /\ dashFree rest
  end.

(** The number of correct answers at the head of a list. On the answers
    listed latest first, this is the streak the player is on. *)
Fixpoint leadingCorrect (answers : list bool) : nat :=
  match answers with
  | true :: rest => S (leadingCorrect rest)
  | _ => 0%nat
  end.

(** The longest run of correct answers in a list: the longest of the
    runs that start at each position. *)
Fixpoint longestRun (answers : list bool) : nat :=
  match answers with
  | [] => 0%nat
  | _ :: rest => Nat.max (leadingCorrect answers) (longestRun rest)
  end.

(** [100 * c / n] rounded to the nearest integer, a tie going up, on exact
    rationals. *)
Definition exactPercent (c n : nat) : Z :=
  (200 * Z.of_nat c + Z.of_nat n) / (2 * Z.of_nat n).

(** The accuracy as a function of the two counts it reads. *)
Definition accuracyOfCounts (correctCount total : nat) : Z :=
  if (total =? 0)%nat then 0
  else
    JS.Math_round
      (PrimFloat.mul
         (PrimFloat.div (JS.Number_of_nat correctCount)
                        (JS.Number_of_nat total))
         (JS.Number_of_nat 100)).

(** Every window size up to 100 and every count of correct answers in it:
    the accuracy is the exact percentage, except at the ratio 23 / 40,
    where the binary64 product falls under the tie. *)
Definition accuracyTable_ok : bool :=
  forallb (fun total =>
    forallb (fun correctCount =>
      accuracyOfCounts correctCount total
      =? (if (40 * correctCount =? 23 * total)%nat then 57
          else exactPercent correctCount total))
      (seq 0 (S total)))
    (seq 1 100).

(** A field that holds 0 is read as a field that is absent. *)
Definition zeroAsAbsent (v : option Z) : option Z :=
  match v with
  | Some 0 => None
  | _ => v
  end.

(** * Properties *)

(** ** The engine's rounding *)

(** A tie goes up, also below zero; the largest binary64 under one half
    goes down. *)
Lemma Math_round_examples :
  JS.Math_round 2.5%float = 3
  /\ JS.Math_round (-2.5)%float = -2
  /\ JS.Math_round 0x1.fffffffffffffp-2%float = 0
  /\ JS.Math_round 66.75%float = 67
  /\ JS.Math_round 75%float = 75.
Proof. repeat split; vm_compute; reflexivity. Qed.

(** ** The aggregator *)

Lemma PwaStats_updateStats_eq stats isCorrect :
  PwaStats.updateStats stats isCorrect = updateStats stats isCorrect.
Proof. reflexivity. Qed.

Lemma PwaStats_generateSettingsKey_eq settings :
  PwaStats.generateSettingsKey settings = generateSettingsKey settings.
Proof. reflexivity. Qed.

Lemma recordAnswers_snoc stats outcomes isCorrect :
  recordAnswers stats (outcomes ++ [isCorrect])
  = updateStats (recordAnswers stats outcomes) isCorrect.
Proof. unfold recordAnswers. by rewrite foldl_app. Qed.

Lemma recordAnswers_app stats l1 l2 :
  recordAnswers stats (l1 ++ l2) = recordAnswers (recordAnswers stats l1) l2.
Proof. unfold recordAnswers. by rewrite foldl_app. Qed.

(** The window after one update, by the length of the window before. *)
Lemma updateStats_recentAnswers stats isCorrect :
  recentAnswers (updateStats stats isCorrect)
  = if (MAX_RECENT_ANSWERS <=? length (recentAnswers stats))%nat
    then tail (recentAnswers stats ++ [isCorrect])
    else recentAnswers stats ++ [isCorrect].
Proof.
  unfold updateStats; cbn [recentAnswers].
  rewrite length_app; cbn [length].
  destruct (Nat.leb_spec MAX_RECENT_ANSWERS (length (recentAnswers stats)));
    destruct (Nat.ltb_spec MAX_RECENT_ANSWERS (length (recentAnswers stats) + 1));
    first [reflexivity | lia].
Qed.

Lemma updateStats_length_cases stats isCorrect :
  length (recentAnswers (updateStats stats isCorrect))
  = if (MAX_RECENT_ANSWERS <=? length (recentAnswers stats))%nat
    then length (recentAnswers stats)
    else S (length (recentAnswers stats)).
Proof.
  rewrite updateStats_recentAnswers.
  destruct (Nat.leb_spec MAX_RECENT_ANSWERS (length (recentAnswers stats)))
    as [Hle|Hlt].
  - destruct (recentAnswers stats) as [|a l]; cbn [tail app length] in *.
    + unfold MAX_RECENT_ANSWERS in Hle; lia.
    + rewrite length_app; cbn [length]; lia.
  - rewrite length_app; cbn [length]; lia.
Qed.

(** A window within the bound holds the last 100 answers it was fed. *)
Lemma updateStats_window stats isCorrect :
  (length (recentAnswers stats) <= MAX_RECENT_ANSWERS)%nat ->
  recentAnswers (updateStats stats isCorrect)
  = drop (length (recentAnswers stats ++ [isCorrect]) - MAX_RECENT_ANSWERS)
         (recentAnswers stats ++ [isCorrect]).
Proof.
  intros Hle. rewrite updateStats_recentAnswers, length_app; cbn [length].
  destruct (Nat.leb_spec MAX_RECENT_ANSWERS (length (recentAnswers stats))).
  - replace (length (recentAnswers stats) + 1 - MAX_RECENT_ANSWERS)%nat
      with 1%nat by lia.
    by destruct (recentAnswers stats ++ [isCorrect]).
  - replace (length (recentAnswers stats) + 1 - MAX_RECENT_ANSWERS)%nat
      with 0%nat by lia.
    reflexivity.
Qed.

Lemma recordAnswers_window outcomes :
  recentAnswers (recordAnswers initializeStats outcomes)
  = drop (length outcomes - MAX_RECENT_ANSWERS) outcomes.
Proof.
  assert (HM : MAX_RECENT_ANSWERS = 100%nat) by reflexivity.
  induction outcomes as [|isCorrect outcomes IH] using rev_ind; [reflexivity|].
  rewrite recordAnswers_snoc, updateStats_window.
  - rewrite IH, !length_app, length_drop; cbn [length].
    destruct (Nat.le_gt_cases (length outcomes) MAX_RECENT_ANSWERS).
    + replace (length outcomes - MAX_RECENT_ANSWERS)%nat with 0%nat by lia.
      rewrite drop_0. f_equal; lia.
    + rewrite !drop_app_le by (rewrite ?length_drop; lia).
      rewrite drop_drop. do 2 f_equal; lia.
  - rewrite IH, length_drop. lia.
Qed.

(** *** The scenario of four answers *)

(** C1, as stated, fails: after the outcomes [true, true, false, true]
    the best accuracy is not 75. The window [true] of the first update
    already has accuracy 100, and the maximum keeps it. *)
Lemma scenario_bestAccuracy_not_75 :
  recordAnswers initializeStats [true; true; false; true]
  <> {| totalChallenges := 4;
        recentAnswers := [true; true; false; true];
        maxConsecutiveCorrect := 2;
        currentConsecutiveCorrect := 1;
        bestAccuracy := 75 |}.
Proof. vm_compute. intros E. discriminate E. Qed.

(** C1, amended: from the empty record, the outcomes
    [true, true, false, true] give [totalChallenges = 4],
    [recentAnswers = [true, true, false, true]],
    [currentConsecutiveCorrect = 1], [maxConsecutiveCorrect = 2] and
    [bestAccuracy = 100]. *)
Theorem scenario_four_answers :
  recordAnswers initializeStats [true; true; false; true]
  = {| totalChallenges := 4;
       recentAnswers := [true; true; false; true];
       maxConsecutiveCorrect := 2;
       currentConsecutiveCorrect := 1;
       bestAccuracy := 100 |}.
Proof. vm_compute. reflexivity. Qed.

(** The accuracy of the window at that point is the 75 of the scenario;
    it is the running maximum that differs. *)
Lemma scenario_current_accuracy :
  calculateAccuracy (recordAnswers initializeStats [true; true; false; true])
  = 75.
Proof. vm_compute. reflexivity. Qed.

Lemma accuracyOf_examples :
  accuracyOf [] = 0 /\ accuracyOf [true; false; true] = 67.
Proof. split; vm_compute; reflexivity. Qed.

(** The quotient is a binary64: 23 correct answers of 40 are 57 percent,
    not the 58 of [round (57.5)]. *)
Lemma accuracyOf_binary64 :
  accuracyOf (replicate 23 true ++ replicate 17 false) = 57.
Proof. vm_compute. reflexivity. Qed.

(** *** The bound on the window *)

(** C5: a record reached from the empty one by updates has at most 100
    recent answers, and they are the last 100 outcomes in order; after 101
    updates the first answer is gone and exactly the 100 later ones
    remain. *)
Theorem recentAnswers_bounded :
  (forall outcomes : list bool,
     (length (recentAnswers (recordAnswers initializeStats outcomes)) <= 100)%nat
     /\ recentAnswers (recordAnswers initializeStats outcomes)
        = drop (length outcomes - 100) outcomes)
  /\ (forall (first : bool) (later : list bool),
        length later = 100%nat ->
        recentAnswers (recordAnswers initializeStats (first :: later)) = later
        /\ length (recentAnswers (recordAnswers initializeStats (first :: later)))
           = 100%nat).
Proof.
  split.
  - intros outcomes. rewrite recordAnswers_window.
    change MAX_RECENT_ANSWERS with 100%nat.
    split; [rewrite length_drop; lia | reflexivity].
  - intros first later Hlen. rewrite recordAnswers_window.
    change MAX_RECENT_ANSWERS with 100%nat. cbn [length]. rewrite Hlen.
    split; [reflexivity | exact Hlen].
Qed.

Lemma recentAnswers_bounded_witness :
  recentAnswers
    (recordAnswers initializeStats (false :: replicate 100 true))
  = replicate 100 true
  /\ length (recentAnswers
       (recordAnswers initializeStats (false :: replicate 100 true)))
     = 100%nat.
Proof.
  apply (proj2 recentAnswers_bounded false (replicate 100 true)).
  reflexivity.
Defined.

(** *** Monotonicity *)

Lemma updateStats_bestAccuracy_le stats isCorrect :
  bestAccuracy stats <= bestAccuracy (updateStats stats isCorrect).
Proof. unfold updateStats; cbn [bestAccuracy]. apply Z.le_max_l. Qed.

Lemma updateStats_maxConsecutiveCorrect_le stats isCorrect :
  maxConsecutiveCorrect stats
  <= maxConsecutiveCorrect (updateStats stats isCorrect).
Proof. unfold updateStats; cbn [maxConsecutiveCorrect]. apply Z.le_max_l. Qed.

Lemma recordAnswers_monotonic stats outcomes :
  bestAccuracy stats <= bestAccuracy (recordAnswers stats outcomes)
  /\ maxConsecutiveCorrect stats
     <= maxConsecutiveCorrect (recordAnswers stats outcomes).
Proof.
  induction outcomes as [|isCorrect outcomes IH] using rev_ind.
  - split; reflexivity.
  - rewrite recordAnswers_snoc. destruct IH as [IHb IHm]. split.
    + etrans; [exact IHb | apply updateStats_bestAccuracy_le].
    + etrans; [exact IHm | apply updateStats_maxConsecutiveCorrect_le].
Qed.

(** C6: one update never lowers [bestAccuracy] nor
    [maxConsecutiveCorrect], and so neither does any sequence of updates,
    from any record and between any two points of the sequence. *)
Theorem updateStats_monotonic :
  (forall stats isCorrect,
     bestAccuracy stats <= bestAccuracy (updateStats stats isCorrect)
     /\ maxConsecutiveCorrect stats
        <= maxConsecutiveCorrect (updateStats stats isCorrect))
  /\ (forall stats earlier later,
        bestAccuracy (recordAnswers stats earlier)
        <= bestAccuracy (recordAnswers stats (earlier ++ later))
        /\ maxConsecutiveCorrect (recordAnswers stats earlier)
           <= maxConsecutiveCorrect (recordAnswers stats (earlier ++ later))).
Proof.
  split.
  - intros stats isCorrect. split.
    + apply updateStats_bestAccuracy_le.
    + apply updateStats_maxConsecutiveCorrect_le.
  - intros stats earlier later. rewrite recordAnswers_app.
    apply recordAnswers_monotonic.
Qed.

(** *** One update on a window of any length *)

(** C10: one update changes the length of [recentAnswers] by at most one.
    On a window longer than 100 it appends one answer and evicts one, so
    the length stays what it was: the window returned is within the bound
    exactly when the window given was. *)
Theorem updateStats_oversized (stats : GameStats) (isCorrect : bool) :
  let before := length (recentAnswers stats) in
  let after := length (recentAnswers (updateStats stats isCorrect)) in
  (before <= after <= before + 1)%nat
  /\ ((100 < before)%nat ->
      after = before
      /\ recentAnswers (updateStats stats isCorrect)
         = tail (recentAnswers stats) ++ [isCorrect])
  /\ ((after <= 100)%nat <-> (before <= 100)%nat).
Proof.
  cbv zeta. rewrite updateStats_length_cases, updateStats_recentAnswers.
  change MAX_RECENT_ANSWERS with 100%nat.
  destruct (Nat.leb_spec 100 (length (recentAnswers stats))) as [Hle|Hlt].
  - split; [lia|]. split; [|lia]. intros _. split; [reflexivity|].
    destruct (recentAnswers stats); [cbn [length] in Hle; lia | reflexivity].
  - split; [lia|]. split; [lia|]. lia.
Qed.

Lemma updateStats_oversized_witness :
  length (recentAnswers
    (updateStats (mkGameStats 150 (replicate 150 true) 150 150 100) false))
  = length (replicate 150 true)
  /\ recentAnswers
       (updateStats (mkGameStats 150 (replicate 150 true) 150 150 100) false)
     = tail (replicate 150 true) ++ [false].
Proof.
  apply (proj1 (proj2 (updateStats_oversized
           (mkGameStats 150 (replicate 150 true) 150 150 100) false))).
  cbn [recentAnswers]. rewrite length_replicate. lia.
Defined.

(** ** The validator *)

Lemma clamp_range lo hi v :
  lo <= hi -> lo <= JS.Math_max lo (JS.Math_min hi v) <= hi.
Proof. unfold JS.Math_max, JS.Math_min. lia. Qed.

(** C2, as stated, fails: for a grid of side 2 the validator lets 10
    active cells through, more than the 4 cells of the grid. *)
Lemma validateSettings_exceeds_grid :
  ~ inDeclaredRange
      (validateSettings
         {| gridSize_opt := Some 2;
            showTime_opt := None;
            answerTime_opt := None;
            numActiveCells_opt := Some 10;
            targetConsecutive_opt := None |}).
Proof. unfold inDeclaredRange. vm_compute. intuition congruence. Qed.

Lemma validateSettings_clamped (settings : PartialGameSettings) :
  inRange (validateSettings settings).
Proof.
  unfold inRange, validateSettings;
    cbn [gridSize showTime answerTime numActiveCells targetConsecutive].
  repeat split; apply clamp_range; lia.
Qed.

(** C2, amended: for every input, partial or not, [validateSettings]
    returns a record with all five fields, each in its range, where the
    range of [numActiveCells] is [1, 64], the cells of the largest grid,
    whatever the returned [gridSize]. The function is total: it never
    raises. *)
Theorem validateSettings_inRange (settings : PartialGameSettings) :
  2 <= gridSize (validateSettings settings) <= 8
  /\ 100 <= showTime (validateSettings settings) <= 10000
  /\ 0 <= answerTime (validateSettings settings) <= 30000
  /\ 1 <= numActiveCells (validateSettings settings) <= 64
  /\ 1 <= targetConsecutive (validateSettings settings) <= 100.
Proof.
  unfold validateSettings;
    cbn [gridSize showTime answerTime numActiveCells targetConsecutive].
  unfold JS.Math_max, JS.Math_min.
  repeat split; lia.
Qed.

(** The bound of the data model holds on the largest grid. *)
Lemma validateSettings_largest_grid settings :
  gridSize (validateSettings settings) = 8 ->
  inDeclaredRange (validateSettings settings).
Proof.
  intros Hg. pose proof (validateSettings_clamped settings) as Hr.
  unfold inRange, inDeclaredRange in *. rewrite Hg. lia.
Qed.

Lemma clamp_fixed lo hi v dflt :
  lo <= v <= hi -> (v = 0 -> dflt = 0) ->
  JS.Math_max lo (JS.Math_min hi (JS.or_default (Some v) dflt)) = v.
Proof.
  intros Hr Hz. unfold JS.or_default, JS.Math_max, JS.Math_min.
  destruct (Z.eqb_spec v 0) as [->|]; [rewrite Hz by reflexivity|]; lia.
Qed.

(** X20: Validating a validated record changes nothing. *)
Lemma validateSettings_idempotent settings :
  validateSettings (complete (validateSettings settings))
  = validateSettings settings.
Proof.
  pose proof (validateSettings_clamped settings) as (Hg & Hs & Ha & Hn & Ht).
  destruct (validateSettings settings) as [g s a n t].
  cbn [gridSize showTime answerTime numActiveCells targetConsecutive] in *.
  unfold validateSettings, complete, DEFAULT_SETTINGS.
  cbn [gridSize_opt showTime_opt answerTime_opt numActiveCells_opt
       targetConsecutive_opt gridSize showTime answerTime numActiveCells
       targetConsecutive].
  rewrite !clamp_fixed by (first [assumption | lia]).
  reflexivity.
Qed.

(** ** The fingerprint *)

(** Appending, one character at a time. *)
Lemma string_app_nil (t : string) : EmptyString +:+ t = t.
Proof. reflexivity. Qed.

Lemma string_app_cons (c : Ascii.ascii) (s t : string) :
  String c s +:+ t = String c (s +:+ t).
Proof. reflexivity. Qed.

Lemma string_app_nil_r (s : string) : s +:+ EmptyString = s.
Proof.
  induction s as [|c s IH]; [reflexivity|].
  by rewrite string_app_cons, IH.
Qed.

Lemma string_app_assoc_cons s c t :
  s +:+ String c t = (s +:+ String c EmptyString) +:+ t.
Proof.
  induction s as [|a s IH]; [reflexivity|].
  by rewrite !string_app_cons, IH.
Qed.

Lemma dashFree_app s t : dashFree s -> dashFree t -> dashFree (s +:+ t).
Proof.
  induction s as [|c s IH]; [by rewrite string_app_nil|].
  rewrite string_app_cons. cbn [dashFree]. intros [? ?] ?. split; auto.
Qed.

Lemma pretty_N_char_not_dash x : pretty_N_char x <> "-"%char.
Proof. unfold pretty_N_char. repeat case_match; discriminate. Qed.

(** The digits of a natural number, pushed in front of [s]. *)
Lemma pretty_N_go_digits x s :
  exists d, pretty_N_go x s = d +:+ s /\ dashFree d
            /\ ((0 < x)%N -> d <> EmptyString).
Proof.
  revert s. induction (N.lt_wf_0 x) as [x _ IH]; intros s.
  assert (x = 0 \/ 0 < x)%N as [->|Hpos] by lia.
  - exists EmptyString. rewrite pretty_N_go_0, string_app_nil.
    split; [done|]. split; [exact I|lia].
  - rewrite pretty_N_go_step by done.
    destruct (IH (x `div` 10)%N (N.div_lt x 10 Hpos eq_refl)
                 (String (pretty_N_char (x `mod` 10)) s)) as (d & -> & Hd & _).
    exists (d +:+ String (pretty_N_char (x `mod` 10)) EmptyString).
    split; [apply string_app_assoc_cons|]. split.
    + apply dashFree_app; [done|]. split; [|exact I].
      apply pretty_N_char_not_dash.
    + intros _. destruct d; discriminate.
Qed.

Lemma pretty_N_dashFree (x : N) :
  dashFree (pretty x) /\ pretty x <> EmptyString.
Proof.
  unfold pretty, pretty_N. case_decide as Hx.
  - split; [|discriminate]. split; [discriminate|exact I].
  - destruct (pretty_N_go_digits x EmptyString) as (d & -> & Hd & Hne).
    rewrite string_app_nil_r. split; [done|]. apply Hne. lia.
Qed.

(** The text of an integer: digits, or a minus sign and digits. *)
Lemma Number_toString_shape (n : Z) :
  exists d, dashFree d /\ d <> EmptyString
            /\ (JS.Number_toString n = d
                \/ JS.Number_toString n = String "-" d).
Proof.
  unfold JS.Number_toString, pretty, pretty_Z. destruct n as [|p|p].
  - exists "0". split; [split; [discriminate|exact I]|].
    split; [discriminate|by left].
  - exists (pretty (N.pos p)).
    destruct (pretty_N_dashFree (N.pos p)) as [? ?]. eauto.
  - exists (pretty (N.pos p)).
    destruct (pretty_N_dashFree (N.pos p)) as [? ?].
    split; [done|]. split; [done|]. by right.
Qed.

(** Two texts cut at their first separator agree piece by piece. *)
Lemma dashFree_split d1 d2 r1 r2 :
  dashFree d1 -> dashFree d2 ->
  d1 +:+ String "-" r1 = d2 +:+ String "-" r2 -> d1 = d2 /\ r1 = r2.
Proof.
  revert d2. induction d1 as [|c d1 IH]; intros [|c' d2];
    rewrite ?string_app_nil, ?string_app_cons; cbn [dashFree].
  - intros _ _ [= ->]. done.
  - intros _ [Hc _] [= <- _]. done.
  - intros [Hc _] _ [= -> _]. done.
  - intros [_ H1] [_ H2] [= -> Heq].
    destruct (IH d2 H1 H2 Heq) as [-> ->]. done.
Qed.

Lemma Number_toString_split a b r1 r2 :
  JS.Number_toString a +:+ "-" +:+ r1 = JS.Number_toString b +:+ "-" +:+ r2 ->
  a = b /\ r1 = r2.
Proof.
  rewrite !(string_app_cons "-" EmptyString), !string_app_nil.
  intros Heq.
  assert (JS.Number_toString a = JS.Number_toString b /\ r1 = r2) as [Hab ?].
  { destruct (Number_toString_shape a) as (da & Hda & Hnea & [Ha|Ha]);
      destruct (Number_toString_shape b) as (db & Hdb & Hneb & [Hb|Hb]);
      rewrite Ha, Hb in *; rewrite ?string_app_cons in Heq.
    - by apply dashFree_split.
    - destruct da as [|c da]; [done|]. rewrite string_app_cons in Heq.
      injection Heq as -> _. by destruct Hda.
    - destruct db as [|c db]; [done|]. rewrite string_app_cons in Heq.
      injection Heq as <- _. by destruct Hdb.
    - injection Heq as Heq.
      destruct (dashFree_split _ _ _ _ Hda Hdb Heq) as [-> ->]. done. }
  split; [|done]. by apply (inj (pretty : Z -> string)).
Qed.

(** The fingerprint determines the four fields it is made of. *)
Lemma generateSettingsKey_inj s1 s2 :
  generateSettingsKey s1 = generateSettingsKey s2 ->
  gridSize s1 = gridSize s2 /\ showTime s1 = showTime s2
  /\ answerTime s1 = answerTime s2 /\ numActiveCells s1 = numActiveCells s2.
Proof.
  unfold generateSettingsKey. intros Heq.
  apply Number_toString_split in Heq as [Hg Heq].
  apply Number_toString_split in Heq as [Hs Heq].
  apply Number_toString_split in Heq as [Ha Heq].
  apply (inj (pretty : Z -> string)) in Heq. done.
Qed.

Lemma generateSettingsKey_ext s1 s2 :
  gridSize s1 = gridSize s2 -> showTime s1 = showTime s2 ->
  answerTime s1 = answerTime s2 -> numActiveCells s1 = numActiveCells s2 ->
  generateSettingsKey s1 = generateSettingsKey s2.
Proof. unfold generateSettingsKey. by intros -> -> -> ->. Qed.

(** C7: the fingerprint is made of [gridSize], [showTime], [answerTime]
    and [numActiveCells] only. Two settings that agree on the four, and
    so any two that differ in [targetConsecutive] alone, have one
    fingerprint and read one statistics record from any map; two settings
    of different [gridSize] have different fingerprints, as for the grids
    of side 4 and 5. *)
Theorem fingerprint_fields :
  (forall s1 s2,
     gridSize s1 = gridSize s2 -> showTime s1 = showTime s2 ->
     answerTime s1 = answerTime s2 -> numActiveCells s1 = numActiveCells s2 ->
     generateSettingsKey s1 = generateSettingsKey s2
     /\ forall statsMap,
          getStatsForSettings statsMap s1 = getStatsForSettings statsMap s2)
  /\ (forall s1 s2,
        gridSize s1 <> gridSize s2 ->
        generateSettingsKey s1 <> generateSettingsKey s2)
  /\ generateSettingsKey (mkGameSettings 4 500 0 5 20)
     <> generateSettingsKey (mkGameSettings 5 500 0 5 20).
Proof.
  split; [|split].
  - intros s1 s2 Hg Hs Ha Hn.
    assert (generateSettingsKey s1 = generateSettingsKey s2) as Hk
      by by apply generateSettingsKey_ext.
    split; [done|]. intros statsMap. unfold getStatsForSettings.
    by rewrite Hk.
  - intros s1 s2 Hne Heq. by apply generateSettingsKey_inj in Heq as [? _].
  - intros Heq. by apply generateSettingsKey_inj in Heq as [? _].
Qed.

Lemma fingerprint_fields_witness :
  generateSettingsKey (mkGameSettings 4 500 0 5 20)
  = generateSettingsKey (mkGameSettings 4 500 0 5 35)
  /\ generateSettingsKey (mkGameSettings 4 500 0 5 20)
     <> generateSettingsKey (mkGameSettings 5 500 0 5 20).
Proof.
  split.
  - apply (proj1 fingerprint_fields
             (mkGameSettings 4 500 0 5 20) (mkGameSettings 4 500 0 5 35));
      reflexivity.
  - apply (proj1 (proj2 fingerprint_fields)). cbn. lia.
Defined.

(** ** The stores behind the manager *)

Section StorageProperties.
Context `{JSON}.

Lemma bind_Ok {St A B} (m : M St A) (k : A -> M St B) s a s' :
  m s = (Ok a, s') -> bind m k s = k a s'.
Proof. unfold bind. by intros ->. Qed.

Lemma bind_Thrown {St A B} (m : M St A) (k : A -> M St B) s e s' :
  m s = (Thrown e, s') -> bind m k s = (Thrown e, s').
Proof. unfold bind. by intros ->. Qed.

Ltac methods :=
  unfold UnifiedStatsManager_getAllStats, UnifiedStatsManager_getStats,
    UnifiedStatsManager_exportStats, UnifiedStatsManager_importStats,
    UnifiedStatsManager_clearAllStats, UnifiedStatsManager_saveStats,
    UnifiedStatsManager_init, usesPwaManager, onPwaManager,
    PWAStatsManager_getAllStats, PWAStatsManager_getStats,
    PWAStatsManager_exportStats, PWAStatsManager_importStats,
    PWAStatsManager_saveStats, PWAStatsManager_init, requireDb, onDb,
    PWAStatsDatabase_getAllStats, PWAStatsDatabase_getStats,
    PWAStatsDatabase_saveStats, PWAStatsDatabase_init, requireOpened,
    getStatsFromStorage, saveStatsToStorage,
    new_UnifiedStatsManager, new_PWAStatsManager, new_PWAStatsDatabase,
    readyManager, readyPWAStatsManager, detectEnvironment,
    onField, onLocal, inWorld, bind, gets, modify, ret, throw.

Lemma init_new w :
  UnifiedStatsManager_init (new_UnifiedStatsManager w, w)
  = (Ok tt, (readyManager w, w)).
Proof.
  methods. cbn. destruct (PwaStats.isPWA w) eqn:E; cbn; rewrite ?E;
    reflexivity.
Qed.

Lemma init_ready w0 w :
  UnifiedStatsManager_init (readyManager w0, w)
  = (Ok tt, (readyManager w0, w)).
Proof. reflexivity. Qed.

(** A method that starts with [init] does on a new manager what it does
    on an initialised one. *)
Lemma init_then_new {A} (rest : Method UnifiedStatsManager A) w :
  bind UnifiedStatsManager_init (fun _ => rest) (new_UnifiedStatsManager w, w)
  = bind UnifiedStatsManager_init (fun _ => rest) (readyManager w, w).
Proof.
  by rewrite (bind_Ok _ _ _ _ _ (init_new w)),
             (bind_Ok _ _ _ _ _ (init_ready w w)).
Qed.

Lemma getAllStats_ready w0 w :
  PwaStats.isPWA w = PwaStats.isPWA w0 ->
  UnifiedStatsManager_getAllStats (readyManager w0, w)
  = (Ok (activeStats w), (readyManager w0, w)).
Proof.
  intros E. unfold activeStats, structuredStats, flatStats. rewrite E.
  methods. cbn. destruct (PwaStats.isPWA w0); reflexivity.
Qed.

Lemma getStats_ready w0 w settings :
  PwaStats.isPWA w = PwaStats.isPWA w0 ->
  UnifiedStatsManager_getStats settings (readyManager w0, w)
  = (Ok (getStatsForSettings (activeStats w) settings), (readyManager w0, w)).
Proof.
  intros E.
  unfold activeStats, structuredStats, flatStats, getStatsForSettings.
  rewrite E. methods. cbn. destruct (PwaStats.isPWA w0); cbn.
  - rewrite lookup_fmap. reflexivity.
  - reflexivity.
Qed.

Lemma exportStats_ready w0 w :
  PwaStats.isPWA w = PwaStats.isPWA w0 ->
  UnifiedStatsManager_exportStats (readyManager w0, w)
  = (Ok (JSON_stringify_pretty (toStored <$> activeStats w)),
     (readyManager w0, w)).
Proof.
  intros E. unfold activeStats, structuredStats, flatStats. rewrite E.
  methods. cbn. destruct (PwaStats.isPWA w0); reflexivity.
Qed.

(** In the installed application [clearAllStats] leaves both stores as
    they were. *)
Lemma clearAllStats_ready w0 w :
  UnifiedStatsManager_clearAllStats (readyManager w0, w)
  = (Ok tt,
     (readyManager w0,
      if PwaStats.isPWA w0 then w else set_localStorage None w)).
Proof.
  methods. cbn. destruct (PwaStats.isPWA w0); cbn; [|reflexivity].
  destruct (PwaStats.isPWA w); reflexivity.
Qed.

Lemma set_indexedDB_same w : set_indexedDB (indexedDB_stats w) w = w.
Proof. by destruct w. Qed.

(** The writes of an import, one entry after the other. *)
Lemma forEach_saveStats (entries : list (string * StoredStats)) w :
  forEach entries (fun entry =>
    onDb (PWAStatsDatabase_saveStats (fst entry) (snd entry)))
    (readyPWAStatsManager, w)
  = (Ok tt,
     (readyPWAStatsManager,
      set_indexedDB
        (foldl (fun d entry => <[fst entry := snd entry]> d)
               (indexedDB_stats w) entries) w)).
Proof.
  revert w. induction entries as [|[k v] entries IH]; intros w.
  - cbn. by rewrite set_indexedDB_same.
  - cbn [forEach]. unfold bind at 1.
    change (onDb (PWAStatsDatabase_saveStats (fst (k, v)) (snd (k, v)))
              (readyPWAStatsManager, w))
      with (Ok tt : Result unit,
            (readyPWAStatsManager,
             set_indexedDB (<[k := v]> (indexedDB_stats w)) w)).
    cbv iota beta. rewrite IH. reflexivity.
Qed.

Lemma foldl_insert_entries (entries : list (string * StoredStats))
    (base : gmap string StoredStats) :
  NoDup entries.*1 ->
  foldl (fun d entry => <[fst entry := snd entry]> d) base entries
  = list_to_map entries ∪ base.
Proof.
  revert base. induction entries as [|[k v] entries IH]; intros base Hnd.
  - cbn. by rewrite (left_id_L ∅ (∪)).
  - apply NoDup_cons in Hnd as [Hk Hnd]. cbn [foldl list_to_map foldr fst snd].
    rewrite IH by done. cbn.
    rewrite <- insert_union_l.
    by rewrite insert_union_r by by apply not_elem_of_list_to_map_1.
Qed.

Lemma foldl_insert_map (m base : gmap string StoredStats) :
  foldl (fun d entry => <[fst entry := snd entry]> d) base (map_to_list m)
  = m ∪ base.
Proof.
  rewrite foldl_insert_entries by apply NoDup_fst_map_to_list.
  by rewrite list_to_map_to_list.
Qed.

(** What an import leaves behind, by the backend: a failure to parse
    leaves everything as it was; the structured store receives the
    entries of the payload one by one, over what it holds; the flat
    store is replaced by the text of the payload's dictionary. *)
Lemma importStats_ready w0 w jsonData :
  UnifiedStatsManager_importStats jsonData (readyManager w0, w)
  = match JSON_parse jsonData with
    | None => (Thrown "SyntaxError", (readyManager w0, w))
    | Some statsMap =>
        (Ok tt,
         (readyManager w0,
          if PwaStats.isPWA w0
          then set_indexedDB (statsMap ∪ indexedDB_stats w) w
          else set_localStorage (Some (JSON_stringify statsMap)) w))
    end.
Proof.
  destruct (PwaStats.isPWA w0) eqn:E.
  - unfold UnifiedStatsManager_importStats, PWAStatsManager_importStats.
    rewrite (bind_Ok _ _ _ _ _ (init_ready w0 w)).
    unfold usesPwaManager, onPwaManager, readyManager, onField.
    unfold bind at 1, gets. cbn. rewrite E. cbn.
    unfold bind, PWAStatsManager_init, requireDb, gets, ret, throw. cbn.
    destruct (JSON_parse jsonData) as [statsMap|]; [|reflexivity].
    fold readyPWAStatsManager.
    rewrite forEach_saveStats, foldl_insert_map. reflexivity.
  - methods. cbn. rewrite E. cbn.
    destruct (JSON_parse jsonData); reflexivity.
Qed.

Lemma getAllStats_new w :
  UnifiedStatsManager_getAllStats (new_UnifiedStatsManager w, w)
  = (Ok (activeStats w), (readyManager w, w)).
Proof.
  etrans; [exact (init_then_new _ w)|]. by apply getAllStats_ready.
Qed.

Lemma exportStats_new w :
  UnifiedStatsManager_exportStats (new_UnifiedStatsManager w, w)
  = (Ok (JSON_stringify_pretty (toStored <$> activeStats w)),
     (readyManager w, w)).
Proof.
  etrans; [exact (init_then_new _ w)|]. by apply exportStats_ready.
Qed.

Lemma clearAllStats_new w :
  UnifiedStatsManager_clearAllStats (new_UnifiedStatsManager w, w)
  = (Ok tt,
     (readyManager w,
      if PwaStats.isPWA w then w else set_localStorage None w)).
Proof.
  etrans; [exact (init_then_new _ w)|]. by apply clearAllStats_ready.
Qed.

Lemma importStats_new w jsonData :
  UnifiedStatsManager_importStats jsonData (new_UnifiedStatsManager w, w)
  = UnifiedStatsManager_importStats jsonData (readyManager w, w).
Proof. exact (init_then_new _ w). Qed.

Lemma migrate_toStored stats : migrate (toStored stats) = stats.
Proof. by destruct stats. Qed.

Lemma migrate_toStored_map (m : gmap string GameStats) :
  migrate <$> (toStored <$> m) = m.
Proof.
  rewrite <- map_fmap_compose. rewrite <- (map_fmap_id m) at 2.
  apply map_fmap_ext. intros k x _. apply migrate_toStored.
Qed.

(** Reading the flat store back after a dictionary was written to it. *)
Lemma flatStats_written w (m : gmap string StoredStats) :
  JSON_parse (JSON_stringify m) = Some m ->
  flatStats (set_localStorage (Some (JSON_stringify m)) w) = migrate <$> m.
Proof.
  intros Hparse. unfold flatStats, getStatsFromStorage, gets. cbn.
  case_decide as Hempty.
  - rewrite Hempty, JSON_parse_empty in Hparse. discriminate.
  - by rewrite Hparse.
Qed.

Lemma flatStats_removed w : flatStats (set_localStorage None w) = ∅.
Proof. reflexivity. Qed.

(** *** Clearing *)

(** In a browser tab, clearing empties the map and every later read
    gives the zeroed record. *)
Lemma clearAllStats_flat w settings :
  PwaStats.isPWA w = false ->
  fst (session w (UnifiedStatsManager_clearAllStats ;;
                  UnifiedStatsManager_getAllStats)) = Ok ∅
  /\ fst (session w (UnifiedStatsManager_clearAllStats ;;
                     UnifiedStatsManager_getStats settings))
     = Ok initializeStats.
Proof.
  intros E. unfold session.
  rewrite !(bind_Ok _ _ _ _ _ (clearAllStats_new w)), E.
  rewrite getAllStats_ready, getStats_ready by reflexivity.
  unfold activeStats. cbn [fst].
  change (PwaStats.isPWA (set_localStorage None w)) with (PwaStats.isPWA w).
  rewrite E, flatStats_removed. split; [reflexivity|].
  unfold getStatsForSettings. by rewrite lookup_empty.
Qed.

(** In the installed application, clearing changes nothing: what was
    stored is read back. *)
Lemma clearAllStats_structured w :
  PwaStats.isPWA w = true ->
  session w (UnifiedStatsManager_clearAllStats ;;
             UnifiedStatsManager_getAllStats)
  = (Ok (structuredStats w), (readyManager w, w)).
Proof.
  intros E. unfold session.
  rewrite (bind_Ok _ _ _ _ _ (clearAllStats_new w)), E.
  rewrite getAllStats_ready by done. unfold activeStats. by rewrite E.
Qed.

(** *** Importing *)

(** C9: when the payload does not parse, [importStats] fails and both
    stores are left exactly as they were, whichever backend is active. *)
Theorem importStats_malformed (w : World) (jsonData : string) :
  JSON_parse jsonData = None ->
  session w (UnifiedStatsManager_importStats jsonData)
  = (Thrown "SyntaxError", (readyManager w, w)).
Proof.
  intros Hparse. unfold session.
  by rewrite importStats_new, importStats_ready, Hparse.
Qed.


(** X16: In a browser tab, an import replaces the whole map by the payload. *)
Lemma importStats_flat w jsonData payload :
  PwaStats.isPWA w = false ->
  JSON_parse jsonData = Some payload ->
  JSON_parse (JSON_stringify payload) = Some payload ->
  fst (session w (UnifiedStatsManager_importStats jsonData ;;
                  UnifiedStatsManager_getAllStats))
  = Ok (migrate <$> payload).
Proof.
  intros E Hparse Hstored. unfold session.
  assert (UnifiedStatsManager_importStats jsonData (new_UnifiedStatsManager w, w)
          = (Ok tt, (readyManager w,
                     set_localStorage (Some (JSON_stringify payload)) w)))
    as Hrun.
  { by rewrite importStats_new, importStats_ready, Hparse, E. }
  rewrite (bind_Ok _ _ _ _ _ Hrun), getAllStats_ready by done.
  unfold activeStats.
  change (PwaStats.isPWA (set_localStorage _ w)) with (PwaStats.isPWA w).
  rewrite E. cbn [fst]. by rewrite flatStats_written.
Qed.

(** *** Export, then import *)

(** C8: a map exported and imported again is the map the backend held,
    in both modes, for every map whose text the engine parses back
    (the indented text of the export and, in a browser tab, the compact
    text of the store). *)
Theorem export_import_roundtrip (w : World) (original : gmap string GameStats) :
  fst (session w UnifiedStatsManager_getAllStats) = Ok original ->
  JSON_parse (JSON_stringify_pretty (toStored <$> original))
    = Some (toStored <$> original) ->
  JSON_parse (JSON_stringify (toStored <$> original))
    = Some (toStored <$> original) ->
  fst (session w (let* jsonData := UnifiedStatsManager_exportStats in
                  UnifiedStatsManager_importStats jsonData ;;
                  UnifiedStatsManager_getAllStats))
  = Ok original.
Proof.
  unfold session. rewrite getAllStats_new. cbn [fst]. intros [= <-].
  intros Hpretty Hcompact.
  rewrite (bind_Ok _ _ _ _ _ (exportStats_new w)).
  assert (UnifiedStatsManager_importStats
            (JSON_stringify_pretty (toStored <$> activeStats w))
            (readyManager w, w)
          = (Ok tt,
             (readyManager w,
              if PwaStats.isPWA w
              then set_indexedDB
                     ((toStored <$> activeStats w) ∪ indexedDB_stats w) w
              else set_localStorage
                     (Some (JSON_stringify (toStored <$> activeStats w))) w)))
    as Hrun.
  { by rewrite importStats_ready, Hpretty. }
  rewrite (bind_Ok _ _ _ _ _ Hrun).
  rewrite getAllStats_ready
    by (destruct (PwaStats.isPWA w) eqn:E; exact E).
  cbn [fst]. f_equal.
  destruct (PwaStats.isPWA w) eqn:E; unfold activeStats at 1.
  - change (PwaStats.isPWA (set_indexedDB _ w)) with (PwaStats.isPWA w).
    rewrite E. unfold activeStats. rewrite E.
    unfold structuredStats. cbn [indexedDB_stats set_indexedDB].
    apply map_eq. intros key. rewrite !lookup_fmap, lookup_union, !lookup_fmap.
    destruct (indexedDB_stats w !! key) as [record|]; cbn; [|done].
    by rewrite migrate_toStored.
  - change (PwaStats.isPWA (set_localStorage _ w)) with (PwaStats.isPWA w).
    rewrite E, flatStats_written by done. apply migrate_toStored_map.
Qed.
End StorageProperties.

(** ** The two backends on concrete stores

    From here on the JSON functions are those of [RefJSON]. *)

#[local] Existing Instance RefJSON.json.

(** The scenario of four answers through the manager, from empty stores:
    either backend ends with the record [updateStats] builds. *)
Lemma scenario_through_manager :
  Scenario.run Scenario.newTab
    (UnifiedStatsManager_saveStats Scenario.easy true ;;
     UnifiedStatsManager_saveStats Scenario.easy true ;;
     UnifiedStatsManager_saveStats Scenario.easy false ;;
     UnifiedStatsManager_saveStats Scenario.easy true ;;
     UnifiedStatsManager_getStats Scenario.easy)
  = Ok (recordAnswers initializeStats [true; true; false; true])
  /\ Scenario.run (Scenario.installedApp ∅)
       (UnifiedStatsManager_saveStats Scenario.easy true ;;
        UnifiedStatsManager_saveStats Scenario.easy true ;;
        UnifiedStatsManager_saveStats Scenario.easy false ;;
        UnifiedStatsManager_saveStats Scenario.easy true ;;
        UnifiedStatsManager_getStats Scenario.easy)
     = Ok (recordAnswers initializeStats [true; true; false; true]).
Proof. split; vm_compute; reflexivity. Qed.

(** C3 fails in the installed application: with one record in the
    structured store, [clearAllStats] completes, and [getAllStats] and
    [getStats] still return that record. *)
Theorem clearAllStats_structured_keeps_records :
  Scenario.run (Scenario.installedApp Scenario.stored)
    (UnifiedStatsManager_clearAllStats ;; UnifiedStatsManager_getAllStats)
  = Ok {[ generateSettingsKey Scenario.easy := migrate Scenario.played ]}
  /\ Scenario.run (Scenario.installedApp Scenario.stored)
       (UnifiedStatsManager_clearAllStats ;;
        UnifiedStatsManager_getStats Scenario.easy)
     = Ok (migrate Scenario.played)
  /\ migrate Scenario.played <> initializeStats.
Proof.
  split; [|split].
  - vm_compute. reflexivity.
  - vm_compute. reflexivity.
  - vm_compute. intros E. discriminate E.
Qed.

(** In a browser tab the same calls give the empty map and the zeroed
    record. *)
Lemma clearAllStats_flat_example :
  Scenario.run (Scenario.browserTab Scenario.stored)
    (UnifiedStatsManager_clearAllStats ;; UnifiedStatsManager_getAllStats)
  = Ok ∅
  /\ Scenario.run (Scenario.browserTab Scenario.stored)
       (UnifiedStatsManager_clearAllStats ;;
        UnifiedStatsManager_getStats Scenario.easy)
     = Ok initializeStats.
Proof. apply clearAllStats_flat. reflexivity. Qed.

(** C4 fails in a browser tab: the store holds a record for the grid of
    side 4, the payload holds one for the grid of side 5 only; after the
    import the record of the grid of side 4 is gone. *)
Theorem importStats_flat_drops_absent :
  Scenario.run (Scenario.browserTab Scenario.stored)
    UnifiedStatsManager_getAllStats
  = Ok {[ generateSettingsKey Scenario.easy := migrate Scenario.played ]}
  /\ Scenario.run (Scenario.browserTab Scenario.stored)
       (UnifiedStatsManager_importStats
          (RefJSON.print true Scenario.incoming) ;;
        UnifiedStatsManager_getAllStats)
     = Ok {[ generateSettingsKey Scenario.hard := migrate Scenario.legacy ]}.
Proof. split; vm_compute; reflexivity. Qed.

(** The installed application keeps it, on the same store and payload. *)
Lemma importStats_structured_example :
  Scenario.run (Scenario.installedApp Scenario.stored)
    (UnifiedStatsManager_importStats
       (RefJSON.print true Scenario.incoming) ;;
     UnifiedStatsManager_getAllStats)
  = Ok (<[ generateSettingsKey Scenario.hard := migrate Scenario.legacy ]>
          {[ generateSettingsKey Scenario.easy := migrate Scenario.played ]}).
Proof. vm_compute. reflexivity. Qed.

Lemma importStats_malformed_witness :
  session (Scenario.browserTab Scenario.stored)
    (UnifiedStatsManager_importStats "{not json")
  = (Thrown "SyntaxError",
     (readyManager (Scenario.browserTab Scenario.stored),
      Scenario.browserTab Scenario.stored))
  /\ session (Scenario.installedApp Scenario.stored)
       (UnifiedStatsManager_importStats "{not json")
     = (Thrown "SyntaxError",
        (readyManager (Scenario.installedApp Scenario.stored),
         Scenario.installedApp Scenario.stored)).
Proof.
  split.
  - apply (importStats_malformed (H := RefJSON.json)
             (Scenario.browserTab Scenario.stored) "{not json").
    vm_compute. reflexivity.
  - apply (importStats_malformed (H := RefJSON.json)
             (Scenario.installedApp Scenario.stored) "{not json").
    vm_compute. reflexivity.
Defined.

Lemma export_import_roundtrip_witness :
  Scenario.run (Scenario.browserTab (Scenario.stored ∪ Scenario.incoming))
    (let* jsonData := UnifiedStatsManager_exportStats in
     UnifiedStatsManager_importStats jsonData ;;
     UnifiedStatsManager_getAllStats)
  = Ok (migrate <$> (Scenario.stored ∪ Scenario.incoming))
  /\ Scenario.run (Scenario.installedApp (Scenario.stored ∪ Scenario.incoming))
       (let* jsonData := UnifiedStatsManager_exportStats in
        UnifiedStatsManager_importStats jsonData ;;
        UnifiedStatsManager_getAllStats)
     = Ok (migrate <$> (Scenario.stored ∪ Scenario.incoming)).
Proof.
  split.
  - apply (export_import_roundtrip (H := RefJSON.json)
             (Scenario.browserTab (Scenario.stored ∪ Scenario.incoming))
             (migrate <$> (Scenario.stored ∪ Scenario.incoming)));
      vm_compute; reflexivity.
  - apply (export_import_roundtrip (H := RefJSON.json)
             (Scenario.installedApp (Scenario.stored ∪ Scenario.incoming))
             (migrate <$> (Scenario.stored ∪ Scenario.incoming)));
      vm_compute; reflexivity.
Defined.

(** * Further properties of the sources *)

(** ** The aggregator, field by field *)

Lemma updateStats_totalChallenges stats isCorrect :
  totalChallenges (updateStats stats isCorrect) = totalChallenges stats + 1.
Proof. reflexivity. Qed.

Lemma recordAnswers_totalChallenges stats outcomes :
  totalChallenges (recordAnswers stats outcomes)
  = totalChallenges stats + Z.of_nat (length outcomes).
Proof.
  induction outcomes as [|isCorrect outcomes IH] using rev_ind.
  - cbn. lia.
  - rewrite recordAnswers_snoc, updateStats_totalChallenges, IH, length_app.
    cbn [length]. lia.
Qed.

(** X1: [totalChallenges] counts every answer without bound, while the
    window holds the smaller of that count and 100. *)
Theorem totalChallenges_and_window (outcomes : list bool) :
  totalChallenges (recordAnswers initializeStats outcomes)
  = Z.of_nat (length outcomes)
  /\ length (recentAnswers (recordAnswers initializeStats outcomes))
     = Nat.min (length outcomes) 100.
Proof.
  split.
  - rewrite recordAnswers_totalChallenges. cbn. lia.
  - rewrite recordAnswers_window, length_drop.
    change MAX_RECENT_ANSWERS with 100%nat. lia.
Qed.

Lemma updateStats_currentConsecutiveCorrect stats isCorrect :
  currentConsecutiveCorrect (updateStats stats isCorrect)
  = if isCorrect then currentConsecutiveCorrect stats + 1 else 0.
Proof. reflexivity. Qed.

Lemma updateStats_maxConsecutiveCorrect stats isCorrect :
  maxConsecutiveCorrect (updateStats stats isCorrect)
  = Z.max (maxConsecutiveCorrect stats)
          (currentConsecutiveCorrect (updateStats stats isCorrect)).
Proof. reflexivity. Qed.

Lemma recordAnswers_current outcomes :
  currentConsecutiveCorrect (recordAnswers initializeStats outcomes)
  = Z.of_nat (leadingCorrect (reverse outcomes)).
Proof.
  induction outcomes as [|isCorrect outcomes IH] using rev_ind; [reflexivity|].
  rewrite recordAnswers_snoc, updateStats_currentConsecutiveCorrect, IH.
  rewrite reverse_snoc. destruct isCorrect; cbn [leadingCorrect]; lia.
Qed.

(** X2: the current streak is the number of correct answers since the
    last wrong one: the outcomes end with that many correct answers, and
    the answer before them, if any, was wrong. *)
Theorem currentConsecutiveCorrect_trailing (outcomes : list bool) :
  exists (earlier : list bool) (k : nat),
    outcomes = earlier ++ replicate k true
    /\ currentConsecutiveCorrect (recordAnswers initializeStats outcomes)
       = Z.of_nat k
    /\ last earlier <> Some true.
Proof.
  rewrite recordAnswers_current.
  induction outcomes as [|isCorrect outcomes IH] using rev_ind.
  - exists [], 0%nat. done.
  - rewrite reverse_snoc. destruct isCorrect; cbn [leadingCorrect].
    + destruct IH as (earlier & k & Heq & Hk & Hlast).
      exists earlier, (S k). split; [|split; [|done]].
      * rewrite Heq, <- app_assoc. f_equal.
        change [true] with (replicate 1 true).
        rewrite <- replicate_add. f_equal. lia.
      * apply Nat2Z.inj in Hk. by rewrite Hk.
    + exists (outcomes ++ [false]), 0%nat.
      split; [by rewrite app_nil_r|]. split; [done|].
      rewrite last_snoc. discriminate.
Qed.

Lemma leadingCorrect_replicate k rest :
  (k <= leadingCorrect (replicate k true ++ rest))%nat.
Proof. induction k as [|k IH]; cbn; lia. Qed.

Lemma leadingCorrect_split answers :
  answers = replicate (leadingCorrect answers) true
            ++ drop (leadingCorrect answers) answers.
Proof.
  induction answers as [|[] answers IH]; cbn; [done| |done].
  by rewrite <- IH.
Qed.

Lemma longestRun_segment_le answers before k after :
  answers = before ++ replicate k true ++ after ->
  (k <= longestRun answers)%nat.
Proof.
  revert answers. induction before as [|b before IH]; intros answers ->.
  - destruct k as [|k]; [lia|].
    pose proof (leadingCorrect_replicate k after) as Hk.
    cbn [app replicate longestRun leadingCorrect]. lia.
  - cbn [app longestRun].
    specialize (IH _ eq_refl). lia.
Qed.

Lemma longestRun_attained answers :
  exists before after,
    answers = before ++ replicate (longestRun answers) true ++ after.
Proof.
  induction answers as [|b answers (before & after & IH)].
  - by exists [], [].
  - cbn [longestRun].
    destruct (Nat.max_spec (leadingCorrect (b :: answers)) (longestRun answers))
      as [[_ ->]|[_ ->]].
    + exists (b :: before), after. cbn [app]. by rewrite <- IH.
    + exists [], (drop (leadingCorrect (b :: answers)) (b :: answers)).
      apply leadingCorrect_split.
Qed.

Lemma recordAnswers_max outcomes :
  maxConsecutiveCorrect (recordAnswers initializeStats outcomes)
  = Z.of_nat (longestRun (reverse outcomes)).
Proof.
  induction outcomes as [|isCorrect outcomes IH] using rev_ind; [reflexivity|].
  rewrite recordAnswers_snoc, updateStats_maxConsecutiveCorrect, IH.
  rewrite <- recordAnswers_snoc, recordAnswers_current, reverse_snoc.
  cbn [longestRun]. lia.
Qed.

(** X3: the best streak is the length of the longest run of consecutive
    correct answers ever recorded: no run is longer, and one is that
    long. *)
Theorem maxConsecutiveCorrect_longest_run (outcomes : list bool) :
  (forall before k after,
     outcomes = before ++ replicate k true ++ after ->
     Z.of_nat k <= maxConsecutiveCorrect (recordAnswers initializeStats outcomes))
  /\ exists before after,
       outcomes
       = before
         ++ replicate
              (Z.to_nat
                 (maxConsecutiveCorrect (recordAnswers initializeStats outcomes)))
              true
         ++ after.
Proof.
  rewrite recordAnswers_max, Nat2Z.id. split.
  - intros before k after Heq. apply inj_le.
    apply (longestRun_segment_le _ (reverse after) k (reverse before)).
    by rewrite Heq, !reverse_app, reverse_replicate, <- app_assoc.
  - destruct (longestRun_attained (reverse outcomes)) as (before & after & Heq).
    exists (reverse after), (reverse before).
    rewrite <- (reverse_involutive outcomes) at 1. rewrite Heq at 1.
    by rewrite !reverse_app, reverse_replicate, <- app_assoc.
Qed.

Lemma maxConsecutiveCorrect_longest_run_witness :
  Z.of_nat 2
  <= maxConsecutiveCorrect
       (recordAnswers initializeStats [true; true; false; true]).
Proof.
  apply (proj1 (maxConsecutiveCorrect_longest_run [true; true; false; true])
           [] 2%nat [false; true]).
  reflexivity.
Defined.

(** ** The accuracy of a window *)

Lemma accuracyOf_counts answers :
  accuracyOf answers
  = accuracyOfCounts (length (List.filter (fun answer => answer) answers))
                     (length answers).
Proof. reflexivity. Qed.

Lemma accuracyTable : accuracyTable_ok = true.
Proof. vm_compute. reflexivity. Qed.

(** The table, entry by entry. *)
Lemma accuracyOfCounts_window (correctCount total : nat) :
  (1 <= total <= 100)%nat -> (correctCount <= total)%nat ->
  accuracyOfCounts correctCount total
  = if (40 * correctCount =? 23 * total)%nat then 57
    else exactPercent correctCount total.
Proof.
  intros Htotal Hcount. pose proof accuracyTable as Htable.
  unfold accuracyTable_ok in Htable.
  rewrite forallb_forall in Htable.
  specialize (Htable total). rewrite forallb_forall in Htable.
  apply Z.eqb_eq, Htable; apply in_seq; lia.
Qed.

Lemma correctCount_le (answers : list bool) :
  (length (List.filter (fun answer => answer) answers) <= length answers)%nat.
Proof. induction answers as [|[] answers IH]; cbn; lia. Qed.

Lemma correctCount_all (answers : list bool) :
  length (List.filter (fun answer => answer) answers) = length answers
  <-> answers = replicate (length answers) true.
Proof.
  induction answers as [|[] answers IH]; cbn; [done| |].
  - split.
    + intros [= Hlen]. f_equal. by apply IH.
    + intros [= Heq]. f_equal. by apply IH.
  - pose proof (correctCount_le answers). split; [lia|discriminate].
Qed.

Lemma correctCount_none (answers : list bool) :
  length (List.filter (fun answer => answer) answers) = 0%nat
  <-> answers = replicate (length answers) false.
Proof.
  induction answers as [|[] answers IH]; cbn; [done| |].
  - split; discriminate.
  - rewrite IH. split; [by intros <-|by intros [= <-]].
Qed.

(** The exact percentage between its bounds. *)
Lemma exactPercent_spec (c n : nat) :
  (0 < n)%nat ->
  2 * Z.of_nat n * exactPercent c n <= 200 * Z.of_nat c + Z.of_nat n
  /\ 200 * Z.of_nat c + Z.of_nat n < 2 * Z.of_nat n * (exactPercent c n + 1).
Proof.
  intros Hn. unfold exactPercent.
  pose proof (Z.div_mod (200 * Z.of_nat c + Z.of_nat n) (2 * Z.of_nat n)
                ltac:(lia)) as Hdm.
  pose proof (Z.mod_pos_bound (200 * Z.of_nat c + Z.of_nat n) (2 * Z.of_nat n)
                ltac:(lia)) as Hmod.
  lia.
Qed.

(** The accuracy of a window of at most 100 answers is a percentage. *)
Lemma accuracyOf_range answers :
  (length answers <= 100)%nat -> 0 <= accuracyOf answers <= 100.
Proof.
  intros Hlen. rewrite accuracyOf_counts.
  destruct answers as [|a answers]; [cbn; lia|].
  pose proof (correctCount_le (a :: answers)) as Hc.
  rewrite accuracyOfCounts_window by (cbn [length] in *; lia).
  case_match; [lia|].
  pose proof (exactPercent_spec
                (length (List.filter (fun answer => answer) (a :: answers)))
                (length (a :: answers)) ltac:(cbn; lia)) as [Hlo Hhi].
  nia.
Qed.

(** X4: on a window of 1 to 100 answers, [calculateAccuracy] is the exact
    percentage of correct answers rounded to the nearest integer (a tie
    going up), except when 23 answers in 40 are correct: the binary64
    product is then under 57.5 and the result is 57. *)
Theorem calculateAccuracy_exact (stats : GameStats) :
  (1 <= length (recentAnswers stats) <= 100)%nat ->
  let correctCount :=
    length (List.filter (fun answer => answer) (recentAnswers stats)) in
  let total := length (recentAnswers stats) in
  calculateAccuracy stats
  = if (40 * correctCount =? 23 * total)%nat then 57
    else (200 * Z.of_nat correctCount + Z.of_nat total) / (2 * Z.of_nat total).
Proof.
  intros Hlen correctCount total. unfold calculateAccuracy.
  rewrite accuracyOf_counts.
  apply accuracyOfCounts_window; [done|apply correctCount_le].
Qed.

Lemma calculateAccuracy_exact_witness :
  calculateAccuracy
    (mkGameStats 40 (replicate 23 true ++ replicate 17 false) 23 0 100)
  = 57.
Proof.
  apply (calculateAccuracy_exact
           (mkGameStats 40 (replicate 23 true ++ replicate 17 false) 23 0 100)).
  cbn. lia.
Defined.

(** X5: on a window of at most 100 answers the accuracy lies between 0
    and 100; it is 0 on the empty window; on a window that is not empty
    it is 100 exactly when every answer is correct and 0 exactly when
    none is. *)
Theorem calculateAccuracy_extremes (stats : GameStats) :
  (length (recentAnswers stats) <= 100)%nat ->
  0 <= calculateAccuracy stats <= 100
  /\ (recentAnswers stats = [] -> calculateAccuracy stats = 0)
  /\ (recentAnswers stats <> [] ->
      (calculateAccuracy stats = 100
       <-> recentAnswers stats
           = replicate (length (recentAnswers stats)) true)
      /\ (calculateAccuracy stats = 0
          <-> recentAnswers stats
              = replicate (length (recentAnswers stats)) false)).
Proof.
  intros Hlen. unfold calculateAccuracy.
  split; [by apply accuracyOf_range|]. split; [by intros ->|].
  intros Hne. rewrite <- correctCount_all, <- correctCount_none.
  rewrite accuracyOf_counts.
  pose proof (correctCount_le (recentAnswers stats)) as Hc.
  assert (1 <= length (recentAnswers stats))%nat as Hpos.
  { destruct (recentAnswers stats); [done|cbn; lia]. }
  rewrite accuracyOfCounts_window by lia.
  pose proof (exactPercent_spec
                (length (List.filter (fun answer => answer) (recentAnswers stats)))
                (length (recentAnswers stats)) ltac:(lia)) as [Hlo Hhi].
  destruct (Nat.eqb_spec
              (40 * length (List.filter (fun answer => answer) (recentAnswers stats)))
              (23 * length (recentAnswers stats))) as [Heq|Hneq].
  - split; split; first [discriminate | lia].
  - split; split; intros; nia.
Qed.

Lemma calculateAccuracy_extremes_witness :
  0 <= calculateAccuracy (mkGameStats 3 [true; true; true] 3 3 100) <= 100
  /\ (recentAnswers (mkGameStats 3 [true; true; true] 3 3 100) = [] ->
      calculateAccuracy (mkGameStats 3 [true; true; true] 3 3 100) = 0)
  /\ (recentAnswers (mkGameStats 3 [true; true; true] 3 3 100) <> [] ->
      (calculateAccuracy (mkGameStats 3 [true; true; true] 3 3 100) = 100
       <-> recentAnswers (mkGameStats 3 [true; true; true] 3 3 100)
           = replicate
               (length (recentAnswers (mkGameStats 3 [true; true; true] 3 3 100)))
               true)
      /\ (calculateAccuracy (mkGameStats 3 [true; true; true] 3 3 100) = 0
          <-> recentAnswers (mkGameStats 3 [true; true; true] 3 3 100)
              = replicate
                  (length (recentAnswers (mkGameStats 3 [true; true; true] 3 3 100)))
                  false)).
Proof.
  apply (calculateAccuracy_extremes (mkGameStats 3 [true; true; true] 3 3 100)).
  cbn. lia.
Defined.

(** ** The best accuracy *)

Lemma recordAnswers_window_length outcomes :
  (length (recentAnswers (recordAnswers initializeStats outcomes)) <= 100)%nat.
Proof.
  rewrite recordAnswers_window, length_drop.
  change MAX_RECENT_ANSWERS with 100%nat. lia.
Qed.

Lemma updateStats_bestAccuracy stats isCorrect :
  bestAccuracy (updateStats stats isCorrect)
  = Z.max (bestAccuracy stats)
          (calculateAccuracy (updateStats stats isCorrect)).
Proof. reflexivity. Qed.

Lemma recordAnswers_bestAccuracy_range outcomes :
  0 <= bestAccuracy (recordAnswers initializeStats outcomes) <= 100.
Proof.
  induction outcomes as [|isCorrect outcomes IH] using rev_ind; [cbn; lia|].
  pose proof (recordAnswers_window_length (outcomes ++ [isCorrect])) as Hlen.
  rewrite recordAnswers_snoc in *. rewrite updateStats_bestAccuracy.
  pose proof (accuracyOf_range _ Hlen) as Hacc.
  unfold calculateAccuracy. lia.
Qed.

(** X6: on every record reached from the empty one, [bestAccuracy] is a
    percentage between 0 and 100 and is at least the accuracy of the
    window the record holds. *)
Theorem bestAccuracy_percentage (outcomes : list bool) :
  0 <= bestAccuracy (recordAnswers initializeStats outcomes) <= 100
  /\ calculateAccuracy (recordAnswers initializeStats outcomes)
     <= bestAccuracy (recordAnswers initializeStats outcomes).
Proof.
  split; [apply recordAnswers_bestAccuracy_range|].
  destruct outcomes as [|isCorrect outcomes _] using rev_ind; [reflexivity|].
  rewrite recordAnswers_snoc, updateStats_bestAccuracy. lia.
Qed.

(** X7: when the first answer ever recorded is correct, the one-answer
    window scores 100 and [bestAccuracy] is 100 from then on, whatever
    follows. *)
Theorem bestAccuracy_pinned_by_first_answer (later : list bool) :
  bestAccuracy (recordAnswers initializeStats (true :: later)) = 100.
Proof.
  pose proof (recordAnswers_bestAccuracy_range (true :: later)) as [_ Hhi].
  change (true :: later) with ([true] ++ later) in *.
  rewrite recordAnswers_app in *.
  pose proof (recordAnswers_monotonic
                (recordAnswers initializeStats [true]) later) as [Hlo _].
  assert (bestAccuracy (recordAnswers initializeStats [true]) = 100) as Hfirst
    by (vm_compute; reflexivity).
  lia.
Qed.

(** ** The streaks against the total *)

(** On every record reached from the empty one the streaks are
    ordered: the current streak is at most the best streak, which is at
    most the number of answers recorded; none is negative. *)
Theorem streaks_ordered (outcomes : list bool) :
  0 <= currentConsecutiveCorrect (recordAnswers initializeStats outcomes)
    <= maxConsecutiveCorrect (recordAnswers initializeStats outcomes)
  /\ maxConsecutiveCorrect (recordAnswers initializeStats outcomes)
     <= totalChallenges (recordAnswers initializeStats outcomes).
Proof.
  induction outcomes as [|isCorrect outcomes IH] using rev_ind; [cbn; lia|].
  rewrite recordAnswers_snoc, updateStats_maxConsecutiveCorrect,
    updateStats_currentConsecutiveCorrect, updateStats_totalChallenges.
  destruct isCorrect; lia.
Qed.

(** ** The map of records *)

(** X8: [updateStatsForSettings] updates the record of the fingerprint of
    the settings, starting from the zeroed record when there is none, and
    leaves the record of every settings that differ in one of the four
    fingerprint fields as it was. *)
Theorem updateStatsForSettings_lookup
    (statsMap : gmap string GameStats) (settings other : GameSettings)
    (isCorrect : bool) :
  getStatsForSettings (updateStatsForSettings statsMap settings isCorrect)
    settings
  = updateStats (getStatsForSettings statsMap settings) isCorrect
  /\ ((gridSize other, showTime other, answerTime other, numActiveCells other)
      <> (gridSize settings, showTime settings, answerTime settings,
          numActiveCells settings) ->
      getStatsForSettings (updateStatsForSettings statsMap settings isCorrect)
        other
      = getStatsForSettings statsMap other).
Proof.
  unfold getStatsForSettings, updateStatsForSettings. split.
  - by rewrite lookup_insert_eq.
  - intros Hne. rewrite lookup_insert_ne; [done|].
    intros Hkey. apply generateSettingsKey_inj in Hkey as (? & ? & ? & ?).
    apply Hne. congruence.
Qed.

Lemma updateStatsForSettings_lookup_witness :
  getStatsForSettings
    (updateStatsForSettings ∅ (mkGameSettings 4 500 0 5 20) true)
    (mkGameSettings 5 500 0 5 20)
  = getStatsForSettings ∅ (mkGameSettings 5 500 0 5 20).
Proof.
  apply (proj2 (updateStatsForSettings_lookup ∅ (mkGameSettings 4 500 0 5 20)
                  (mkGameSettings 5 500 0 5 20) true)).
  cbn. intros E. discriminate E.
Defined.

(** Answer after answer through the map is [recordAnswers] on the record
    of the fingerprint. *)
Lemma updateStatsForSettings_fold statsMap settings outcomes :
  getStatsForSettings
    (foldl (fun m isCorrect => updateStatsForSettings m settings isCorrect)
           statsMap outcomes)
    settings
  = recordAnswers (getStatsForSettings statsMap settings) outcomes.
Proof.
  induction outcomes as [|isCorrect outcomes IH] using rev_ind; [done|].
  rewrite foldl_app, recordAnswers_snoc, <- IH. cbn [foldl].
  unfold getStatsForSettings, updateStatsForSettings.
  by rewrite lookup_insert_eq.
Qed.

(** ** The structured store *)

Section DatabaseProperties.

Ltac database :=
  unfold PWAStatsDatabase_getAllStats, PWAStatsDatabase_getStats,
    PWAStatsDatabase_saveStats, PWAStatsDatabase_deleteStats,
    PWAStatsDatabase_clearAllStats, PWAStatsDatabase_getDatabaseSize,
    PWAStatsDatabase_init, requireOpened, new_PWAStatsDatabase,
    inWorld, bind, gets, modify, ret, throw.

(** Before [init] every method of [PWAStatsDatabase] throws
    "Database not initialized" and leaves the store and the object as
    they were. *)
Theorem PWAStatsDatabase_not_initialized
    (w : World) (settingsKey : string) (stats : StoredStats) :
  PWAStatsDatabase_saveStats settingsKey stats (new_PWAStatsDatabase, w)
  = (Thrown "Database not initialized", (new_PWAStatsDatabase, w))
  /\ PWAStatsDatabase_getStats settingsKey (new_PWAStatsDatabase, w)
     = (Thrown "Database not initialized", (new_PWAStatsDatabase, w))
  /\ PWAStatsDatabase_getAllStats (new_PWAStatsDatabase, w)
     = (Thrown "Database not initialized", (new_PWAStatsDatabase, w))
  /\ PWAStatsDatabase_deleteStats settingsKey (new_PWAStatsDatabase, w)
     = (Thrown "Database not initialized", (new_PWAStatsDatabase, w))
  /\ PWAStatsDatabase_clearAllStats (new_PWAStatsDatabase, w)
     = (Thrown "Database not initialized", (new_PWAStatsDatabase, w))
  /\ PWAStatsDatabase_getDatabaseSize (new_PWAStatsDatabase, w)
     = (Thrown "Database not initialized", (new_PWAStatsDatabase, w)).
Proof. repeat split. Qed.

(** The database once [init] has run. *)
Lemma PWAStatsDatabase_init_opens w :
  PWAStatsDatabase_init (new_PWAStatsDatabase, w)
  = (Ok tt, (mkDatabase true, w)).
Proof. reflexivity. Qed.

(** X9: on an open database, a record saved under a key is the record
    read under that key, with [bestAccuracy] 0 when the saved record had
    none; the records under the other keys are read as before; the count
    of records grows by one exactly when the key is new. *)
Theorem PWAStatsDatabase_save_then_read
    (w : World) (settingsKey other : string) (stats : StoredStats) :
  fst ((PWAStatsDatabase_saveStats settingsKey stats ;;
        PWAStatsDatabase_getStats settingsKey) (mkDatabase true, w))
  = Ok (Some (migrate stats))
  /\ (other <> settingsKey ->
      fst ((PWAStatsDatabase_saveStats settingsKey stats ;;
            PWAStatsDatabase_getStats other) (mkDatabase true, w))
      = fst (PWAStatsDatabase_getStats other (mkDatabase true, w)))
  /\ fst ((PWAStatsDatabase_saveStats settingsKey stats ;;
           PWAStatsDatabase_getDatabaseSize) (mkDatabase true, w))
     = Ok (match indexedDB_stats w !! settingsKey with
           | Some _ => size (indexedDB_stats w)
           | None => S (size (indexedDB_stats w))
           end).
Proof.
  database. cbn. split; [|split].
  - by rewrite lookup_insert_eq.
  - intros Hne. by rewrite lookup_insert_ne.
  - f_equal. destruct (indexedDB_stats w !! settingsKey) as [old|] eqn:E.
    + rewrite <- (insert_id _ _ _ E) at 2.
      rewrite <- insert_delete_eq, <- (insert_delete_eq (indexedDB_stats w)).
      by rewrite !map_size_insert_None by apply lookup_delete_eq.
    + by apply map_size_insert_None.
Qed.

Lemma PWAStatsDatabase_save_then_read_witness :
  fst ((PWAStatsDatabase_saveStats "4-500-0-5" Scenario.played ;;
        PWAStatsDatabase_getStats "5-500-0-5")
         (mkDatabase true, Scenario.installedApp Scenario.incoming))
  = fst (PWAStatsDatabase_getStats "5-500-0-5"
           (mkDatabase true, Scenario.installedApp Scenario.incoming)).
Proof.
  apply (proj1 (proj2 (PWAStatsDatabase_save_then_read
           (Scenario.installedApp Scenario.incoming)
           "4-500-0-5" "5-500-0-5" Scenario.played))).
  intros E. discriminate E.
Defined.

(** X10: on an open database, [deleteStats] removes the record of its key
    and no other, and [clearAllStats] leaves no record: the map read back
    is empty and the count is 0. *)
Theorem PWAStatsDatabase_delete_and_clear
    (w : World) (settingsKey other : string) :
  fst ((PWAStatsDatabase_deleteStats settingsKey ;;
        PWAStatsDatabase_getStats settingsKey) (mkDatabase true, w))
  = Ok None
  /\ (other <> settingsKey ->
      fst ((PWAStatsDatabase_deleteStats settingsKey ;;
            PWAStatsDatabase_getStats other) (mkDatabase true, w))
      = fst (PWAStatsDatabase_getStats other (mkDatabase true, w)))
  /\ fst ((PWAStatsDatabase_clearAllStats ;;
           PWAStatsDatabase_getAllStats) (mkDatabase true, w))
     = Ok ∅
  /\ fst ((PWAStatsDatabase_clearAllStats ;;
           PWAStatsDatabase_getDatabaseSize) (mkDatabase true, w))
     = Ok 0%nat.
Proof.
  database. cbn. split; [|split; [|split]].
  - by rewrite lookup_delete_eq.
  - intros Hne. by rewrite lookup_delete_ne.
  - by rewrite fmap_empty.
  - by rewrite map_size_empty.
Qed.

Lemma PWAStatsDatabase_delete_and_clear_witness :
  fst ((PWAStatsDatabase_deleteStats "4-500-0-5" ;;
        PWAStatsDatabase_getStats "5-500-0-5")
         (mkDatabase true, Scenario.installedApp Scenario.incoming))
  = fst (PWAStatsDatabase_getStats "5-500-0-5"
           (mkDatabase true, Scenario.installedApp Scenario.incoming)).
Proof.
  apply (proj1 (proj2 (PWAStatsDatabase_delete_and_clear
           (Scenario.installedApp Scenario.incoming)
           "4-500-0-5" "5-500-0-5"))).
  intros E. discriminate E.
Defined.

(** The three readers of an open database agree and write nothing:
    [getAllStats] holds under each key what [getStats] returns for it,
    [getDatabaseSize] is the number of its keys, and the store after each
    of them is the store before, also when a record is read in the shape
    that precedes [bestAccuracy]. *)
Theorem PWAStatsDatabase_readers_agree (w : World) (settingsKey : string) :
  exists statsMap,
    PWAStatsDatabase_getAllStats (mkDatabase true, w)
    = (Ok statsMap, (mkDatabase true, w))
    /\ PWAStatsDatabase_getStats settingsKey (mkDatabase true, w)
       = (Ok (statsMap !! settingsKey), (mkDatabase true, w))
    /\ PWAStatsDatabase_getDatabaseSize (mkDatabase true, w)
       = (Ok (size statsMap), (mkDatabase true, w)).
Proof.
  exists (migrate <$> indexedDB_stats w). database. cbn.
  split; [done|]. split.
  - by rewrite lookup_fmap.
  - by rewrite map_size_fmap.
Qed.

End DatabaseProperties.

(** ** The manager over both stores *)

Section ManagerProperties.
Context `{JSON}.

Ltac manager :=
  unfold UnifiedStatsManager_getAllStats, UnifiedStatsManager_getStats,
    UnifiedStatsManager_saveStats, UnifiedStatsManager_getDatabaseSize,
    UnifiedStatsManager_getStatsByKey,
    UnifiedStatsManager_syncDataBetweenEnvironments,
    UnifiedStatsManager_init, usesPwaManager, onPwaManager,
    PWAStatsManager_getAllStats, PWAStatsManager_getStats,
    PWAStatsManager_exportStats, PWAStatsManager_importStats,
    PWAStatsManager_saveStats, PWAStatsManager_init, requireDb, onDb,
    PWAStatsDatabase_getAllStats, PWAStatsDatabase_getStats,
    PWAStatsDatabase_saveStats, PWAStatsDatabase_init, requireOpened,
    getStatsFromStorage, saveStatsToStorage,
    new_UnifiedStatsManager, new_PWAStatsManager, new_PWAStatsDatabase,
    readyManager, readyPWAStatsManager, detectEnvironment, tryCatch,
    onField, onLocal, inWorld, bind, gets, modify, ret, throw.

Lemma saveStats_ready w0 w settings isCorrect :
  PwaStats.isPWA w = PwaStats.isPWA w0 ->
  UnifiedStatsManager_saveStats settings isCorrect (readyManager w0, w)
  = (Ok tt,
     (readyManager w0,
      let updated := updateStatsForSettings (activeStats w) settings isCorrect in
      if PwaStats.isPWA w0
      then set_indexedDB
             (<[generateSettingsKey settings :=
                  toStored (getStatsForSettings updated settings)]>
                (indexedDB_stats w)) w
      else set_localStorage (Some (JSON_stringify (toStored <$> updated))) w)).
Proof.
  intros E.
  unfold activeStats, structuredStats, flatStats, getStatsForSettings,
    updateStatsForSettings.
  rewrite E. manager. cbn. destruct (PwaStats.isPWA w0); cbn.
  - rewrite lookup_insert_eq, lookup_fmap. reflexivity.
  - reflexivity.
Qed.

Lemma saveStats_new w settings isCorrect :
  UnifiedStatsManager_saveStats settings isCorrect
    (new_UnifiedStatsManager w, w)
  = UnifiedStatsManager_saveStats settings isCorrect (readyManager w, w).
Proof. exact (init_then_new _ w). Qed.

(** X11: in both backends [saveStats] does to the stored map what
    [updateStatsForSettings] does: the record of the fingerprint is
    updated from what was stored, or from the zeroed record, and every
    other record stays. In a browser tab this needs the engine to parse
    back the text it wrote for the new map. *)
Theorem saveStats_updates_stored_map
    (w : World) (settings : GameSettings) (isCorrect : bool)
    (before : gmap string GameStats) :
  fst (session w UnifiedStatsManager_getAllStats) = Ok before ->
  (PwaStats.isPWA w = false ->
   JSON_parse (JSON_stringify
                 (toStored <$> updateStatsForSettings before settings isCorrect))
   = Some (toStored <$> updateStatsForSettings before settings isCorrect)) ->
  fst (session w (UnifiedStatsManager_saveStats settings isCorrect ;;
                  UnifiedStatsManager_getAllStats))
  = Ok (updateStatsForSettings before settings isCorrect).
Proof.
  unfold session. rewrite getAllStats_new. cbn [fst]. intros [= <-] Hcodec.
  pose proof (saveStats_ready w w settings isCorrect eq_refl) as Hrun.
  rewrite <- saveStats_new in Hrun.
  rewrite (bind_Ok _ _ _ _ _ Hrun).
  rewrite getAllStats_ready
    by (cbv zeta; destruct (PwaStats.isPWA w) eqn:E; exact E).
  cbn [fst]. f_equal. cbv zeta.
  destruct (PwaStats.isPWA w) eqn:E; unfold activeStats at 1.
  - change (PwaStats.isPWA (set_indexedDB _ w)) with (PwaStats.isPWA w).
    rewrite E. unfold structuredStats. cbn [indexedDB_stats set_indexedDB].
    rewrite fmap_insert, migrate_toStored.
    unfold getStatsForSettings, updateStatsForSettings, activeStats.
    rewrite E, lookup_insert_eq. reflexivity.
  - change (PwaStats.isPWA (set_localStorage _ w)) with (PwaStats.isPWA w).
    rewrite E, flatStats_written by auto. apply migrate_toStored_map.
Qed.

Lemma getStats_new w settings :
  UnifiedStatsManager_getStats settings (new_UnifiedStatsManager w, w)
  = (Ok (getStatsForSettings (activeStats w) settings), (readyManager w, w)).
Proof.
  etrans; [exact (init_then_new _ w)|]. by apply getStats_ready.
Qed.

(** X12: outside the installed application every method of
    [PWAStatsManager] throws "PWA environment not detected"; the manager
    is marked initialised without a database and both stores are as they
    were. *)
Theorem PWAStatsManager_outside_pwa
    (w : World) (settings : GameSettings) (isCorrect : bool)
    (jsonData : string) :
  PwaStats.isPWA w = false ->
  let failed : PWAStatsManager * World :=
    ({| pm_db := None; pm_initialized := true |}, w) in
  PWAStatsManager_saveStats settings isCorrect (new_PWAStatsManager, w)
  = (Thrown "PWA environment not detected", failed)
  /\ PWAStatsManager_getStats settings (new_PWAStatsManager, w)
     = (Thrown "PWA environment not detected", failed)
  /\ PWAStatsManager_getAllStats (new_PWAStatsManager, w)
     = (Thrown "PWA environment not detected", failed)
  /\ PWAStatsManager_exportStats (new_PWAStatsManager, w)
     = (Thrown "PWA environment not detected", failed)
  /\ PWAStatsManager_importStats jsonData (new_PWAStatsManager, w)
     = (Thrown "PWA environment not detected", failed).
Proof.
  intros E failed. subst failed. manager. cbn. rewrite E. cbn.
  repeat split.
Qed.


(** X14: a record stored in the shape that precedes [bestAccuracy] is
    read by [getStats] with [bestAccuracy] 0 and its other fields as
    stored, without an error and without a write, from the structured
    store and from the flat one. *)
Theorem legacy_record_read
    (w : World) (settings : GameSettings) (record : StoredStats) :
  stored_bestAccuracy record = None ->
  (if PwaStats.isPWA w
   then indexedDB_stats w !! generateSettingsKey settings = Some record
   else exists text statsMap,
          localStorage_gameStatsMap w = Some text
          /\ JSON_parse text = Some statsMap
          /\ statsMap !! generateSettingsKey settings = Some record) ->
  session w (UnifiedStatsManager_getStats settings)
  = (Ok {| totalChallenges := stored_totalChallenges record;
           recentAnswers := stored_recentAnswers record;
           maxConsecutiveCorrect := stored_maxConsecutiveCorrect record;
           currentConsecutiveCorrect := stored_currentConsecutiveCorrect record;
           bestAccuracy := 0 |},
     (readyManager w, w)).
Proof.
  intros Hlegacy Hstored. unfold session.
  rewrite getStats_new. do 2 f_equal.
  unfold getStatsForSettings, activeStats, structuredStats, flatStats.
  destruct (PwaStats.isPWA w).
  - rewrite lookup_fmap, Hstored. cbn. unfold migrate. by rewrite Hlegacy.
  - destruct Hstored as (text & statsMap & Htext & Hparse & Hrecord).
    unfold getStatsFromStorage, gets. rewrite Htext.
    case_decide as Hempty.
    + rewrite Hempty, JSON_parse_empty in Hparse. discriminate.
    + rewrite Hparse, lookup_fmap, Hrecord. cbn. unfold migrate.
      by rewrite Hlegacy.
Qed.

End ManagerProperties.

(** ** Copies between the stores *)

Section TransferProperties.
Context `{JSON}.

Ltac transfer :=
  unfold UnifiedStatsManager_syncDataBetweenEnvironments,
    UnifiedStatsManager_createBackup, UnifiedStatsManager_restoreFromBackup,
    UnifiedStatsManager_exportStats, UnifiedStatsManager_importStats,
    UnifiedStatsManager_init, usesPwaManager, onPwaManager,
    PWAStatsManager_getAllStats, PWAStatsManager_exportStats,
    PWAStatsManager_importStats, PWAStatsManager_init, requireDb, onDb,
    PWAStatsDatabase_getAllStats, PWAStatsDatabase_init, requireOpened,
    getStatsFromStorage, saveStatsToStorage,
    new_UnifiedStatsManager, new_PWAStatsManager, new_PWAStatsDatabase,
    readyManager, readyPWAStatsManager, detectEnvironment, tryCatch,
    onField, onLocal, inWorld, bind, gets, modify, ret, throw.

(** X17: from a browser tab [syncDataBetweenEnvironments] copies nothing:
    the [PWAStatsManager] it builds finds no installed application, its
    import throws, the exception is dropped, and the call completes with
    both stores as they were. *)
Theorem sync_from_browser_tab (w : World) :
  PwaStats.isPWA w = false ->
  session w UnifiedStatsManager_syncDataBetweenEnvironments
  = (Ok tt, (readyManager w, w)).
Proof.
  intros E. unfold session. etrans; [exact (init_then_new _ w)|].
  transfer. cbn. rewrite E. cbn.
  destruct (hasIndexedDB w); cbn; [|reflexivity].
  case_match; cbn; rewrite ?E; reflexivity.
Qed.





End TransferProperties.

(** ** The manager on the concrete stores *)

Lemma saveStats_updates_stored_map_witness :
  Scenario.run (Scenario.browserTab Scenario.stored)
    (UnifiedStatsManager_saveStats Scenario.hard false ;;
     UnifiedStatsManager_getAllStats)
  = Ok (updateStatsForSettings (migrate <$> Scenario.stored) Scenario.hard false)
  /\ Scenario.run (Scenario.installedApp Scenario.stored)
       (UnifiedStatsManager_saveStats Scenario.easy true ;;
        UnifiedStatsManager_getAllStats)
     = Ok (updateStatsForSettings (migrate <$> Scenario.stored)
             Scenario.easy true).
Proof.
  split.
  - apply (saveStats_updates_stored_map (H := RefJSON.json)
             (Scenario.browserTab Scenario.stored) Scenario.hard false
             (migrate <$> Scenario.stored)).
    + vm_compute. reflexivity.
    + intros _. vm_compute. reflexivity.
  - apply (saveStats_updates_stored_map (H := RefJSON.json)
             (Scenario.installedApp Scenario.stored) Scenario.easy true
             (migrate <$> Scenario.stored)).
    + vm_compute. reflexivity.
    + intros E. vm_compute in E. discriminate E.
Defined.

Lemma PWAStatsManager_outside_pwa_witness :
  PWAStatsManager_saveStats Scenario.easy true
    (new_PWAStatsManager, Scenario.newTab)
  = (Thrown "PWA environment not detected",
     ({| pm_db := None; pm_initialized := true |}, Scenario.newTab)).
Proof.
  apply (proj1 (PWAStatsManager_outside_pwa (H := RefJSON.json)
                  Scenario.newTab Scenario.easy true "{}" eq_refl)).
Defined.

Lemma legacy_record_read_witness :
  session (Scenario.installedApp Scenario.incoming)
    (UnifiedStatsManager_getStats Scenario.hard)
  = (Ok (mkGameStats 3 [true; false; true] 1 1 0),
     (readyManager (Scenario.installedApp Scenario.incoming),
      Scenario.installedApp Scenario.incoming))
  /\ session (Scenario.browserTab Scenario.incoming)
       (UnifiedStatsManager_getStats Scenario.hard)
     = (Ok (mkGameStats 3 [true; false; true] 1 1 0),
        (readyManager (Scenario.browserTab Scenario.incoming),
         Scenario.browserTab Scenario.incoming)).
Proof.
  split.
  - apply (legacy_record_read (H := RefJSON.json)
             (Scenario.installedApp Scenario.incoming)
             Scenario.hard Scenario.legacy); [reflexivity|].
    vm_compute. reflexivity.
  - apply (legacy_record_read (H := RefJSON.json)
             (Scenario.browserTab Scenario.incoming)
             Scenario.hard Scenario.legacy); [reflexivity|].
    change (PwaStats.isPWA (Scenario.browserTab Scenario.incoming)) with false.
    exists (RefJSON.print false Scenario.incoming), Scenario.incoming.
    repeat split; vm_compute; reflexivity.
Defined.

Lemma sync_from_browser_tab_witness :
  session (Scenario.browserTab Scenario.stored)
    UnifiedStatsManager_syncDataBetweenEnvironments
  = (Ok tt,
     (readyManager (Scenario.browserTab Scenario.stored),
      Scenario.browserTab Scenario.stored)).
Proof.
  apply (sync_from_browser_tab (H := RefJSON.json)
           (Scenario.browserTab Scenario.stored)).
  reflexivity.
Defined.




Lemma importStats_flat_witness :
  fst (session (Scenario.browserTab Scenario.stored)
         (UnifiedStatsManager_importStats
            (RefJSON.print true Scenario.incoming) ;;
          UnifiedStatsManager_getAllStats))
  = Ok (migrate <$> Scenario.incoming).
Proof.
  apply (importStats_flat (H := RefJSON.json)
           (Scenario.browserTab Scenario.stored)
           (RefJSON.print true Scenario.incoming) Scenario.incoming).
  - reflexivity.
  - vm_compute. reflexivity.
  - vm_compute. reflexivity.
Defined.


(** ** The validator, once more *)

Lemma validateSettings_complete_inRange (s : GameSettings) :
  inRange s -> validateSettings (complete s) = s.
Proof.
  intros (Hg & Hs & Ha & Hn & Ht). destruct s as [g st a n t].
  cbn [gridSize showTime answerTime numActiveCells targetConsecutive] in *.
  unfold validateSettings, complete, DEFAULT_SETTINGS.
  cbn [gridSize_opt showTime_opt answerTime_opt numActiveCells_opt
       targetConsecutive_opt gridSize showTime answerTime numActiveCells
       targetConsecutive].
  rewrite !clamp_fixed by (first [assumption | lia]).
  reflexivity.
Qed.


(** X21: the records [validateSettings] returns unchanged are exactly
    those within the ranges it enforces. *)
Theorem validateSettings_fixed_points (s : GameSettings) :
  validateSettings (complete s) = s
  <-> (2 <= gridSize s <= 8
       /\ 100 <= showTime s <= 10000
       /\ 0 <= answerTime s <= 30000
       /\ 1 <= numActiveCells s <= 64
       /\ 1 <= targetConsecutive s <= 100).
Proof.
  split.
  - intros <-. apply validateSettings_clamped.
  - apply validateSettings_complete_inRange.
Qed.

Lemma or_default_zeroAsAbsent v d :
  JS.or_default (zeroAsAbsent v) d = JS.or_default v d.
Proof. by destruct v as [[| |]|]. Qed.

(** A field that is 0 is treated as an absent field: the default
    takes its place before the clamp, so that 0 active cells become the 5
    of the default and not the lower bound 1, while a negative number is
    raised to the lower bound. With no field at all the result is
    [DEFAULT_SETTINGS]. *)
Theorem validateSettings_zero_is_absent (settings : PartialGameSettings) :
  validateSettings settings
  = validateSettings
      {| gridSize_opt := zeroAsAbsent (gridSize_opt settings);
         showTime_opt := zeroAsAbsent (showTime_opt settings);
         answerTime_opt := zeroAsAbsent (answerTime_opt settings);
         numActiveCells_opt := zeroAsAbsent (numActiveCells_opt settings);
         targetConsecutive_opt := zeroAsAbsent (targetConsecutive_opt settings) |}
  /\ validateSettings (mkPartial None None None None None) = DEFAULT_SETTINGS
  /\ numActiveCells
       (validateSettings (mkPartial None None None (Some 0) None)) = 5
  /\ (forall n, n < 0 ->
       numActiveCells
         (validateSettings (mkPartial None None None (Some n) None)) = 1).
Proof.
  split; [|split; [reflexivity|split; [reflexivity|]]].
  - unfold validateSettings.
    cbn [gridSize_opt showTime_opt answerTime_opt numActiveCells_opt
         targetConsecutive_opt].
    by rewrite !or_default_zeroAsAbsent.
  - intros n Hn. unfold validateSettings, JS.or_default, JS.Math_max, JS.Math_min.
    cbn [numActiveCells numActiveCells_opt].
    destruct (Z.eqb_spec n 0); lia.
Qed.

(** ** The settings stores *)

Section SettingsProperties.
Context `{SettingsJSON}.

Ltac settings_methods :=
  unfold UnifiedSettingsManager_loadSettings,
    UnifiedSettingsManager_saveSettings,
    UnifiedSettingsManager_importSettings,
    UnifiedSettingsManager_exportSettings,
    UnifiedSettingsManager_init, hasSettingsPwaManager, onSettingsPwaManager,
    PWASettingsManager_loadSettings, PWASettingsManager_saveSettings,
    PWASettingsManager_importSettings, PWASettingsManager_exportSettings,
    PWASettingsManager_init, requireSettingsDb,
    loadSettingsFromStorage, saveSettingsToStorage,
    new_UnifiedSettingsManager, new_PWASettingsManager, readySettingsManager,
    onMember, inBrowser, bind, gets, modify, ret, throw.




Lemma saveSettings_new b settings :
  settingsSession b (UnifiedSettingsManager_saveSettings settings)
  = (Ok tt,
     (readySettingsManager b,
      if settingsIsPWA (page b)
      then set_indexedDB_settings (Some settings) b
      else set_localStorage_gameSettings
             (Some (JSON_stringify_data settings (now b))) b)).
Proof.
  unfold settingsSession. settings_methods. cbn.
  destruct (settingsIsPWA (page b)); reflexivity.
Qed.

Lemma flatSettings_written b settings text :
  JSON_parse_data text = Some settings ->
  loadSettingsFromStorage (set_localStorage_gameSettings (Some text) b)
  = (Ok (validateSettings settings),
     set_localStorage_gameSettings (Some text) b).
Proof.
  intros Hparse. unfold loadSettingsFromStorage, gets. cbn.
  case_decide as Hempty.
  - rewrite Hempty, JSON_parse_data_empty in Hparse. discriminate.
  - by rewrite Hparse.
Qed.

(** What is loaded after [settings] went to the active store. *)
Lemma load_after_store b settings :
  (settingsIsPWA (page b) = false ->
   JSON_parse_data (JSON_stringify_data settings (now b))
   = Some (complete settings)) ->
  fst (UnifiedSettingsManager_loadSettings
         (readySettingsManager b,
          if settingsIsPWA (page b)
          then set_indexedDB_settings (Some settings) b
          else set_localStorage_gameSettings
                 (Some (JSON_stringify_data settings (now b))) b))
  = Ok (validateSettings (complete settings)).
Proof.
  intros Hcodec. settings_methods. cbn.
  destruct (settingsIsPWA (page b)) eqn:E; cbn; [reflexivity|].
  pose proof (flatSettings_written b _ _ (Hcodec eq_refl)) as Hread.
  unfold loadSettingsFromStorage, gets in Hread. cbn in Hread.
  by injection Hread as ->.
Qed.

(** X23: settings saved are the settings loaded next, clamped: saving
    does not validate, loading does. Settings within the ranges come
    back unchanged. In a browser tab this needs the engine to read back
    the envelope it wrote. *)
Theorem saveSettings_then_loadSettings
    (b : SettingsBrowser) (settings : GameSettings) :
  (settingsIsPWA (page b) = false ->
   JSON_parse_data (JSON_stringify_data settings (now b))
   = Some (complete settings)) ->
  fst (settingsSession b (UnifiedSettingsManager_saveSettings settings ;;
                          UnifiedSettingsManager_loadSettings))
  = Ok (validateSettings (complete settings))
  /\ (inRange settings ->
      fst (settingsSession b (UnifiedSettingsManager_saveSettings settings ;;
                              UnifiedSettingsManager_loadSettings))
      = Ok settings).
Proof.
  intros Hcodec.
  assert (fst (settingsSession b
                 (UnifiedSettingsManager_saveSettings settings ;;
                  UnifiedSettingsManager_loadSettings))
          = Ok (validateSettings (complete settings))) as Hrun.
  { unfold settingsSession.
    pose proof (saveSettings_new b settings) as Hsave.
    unfold settingsSession in Hsave.
    rewrite (bind_Ok _ _ _ _ _ Hsave). by apply load_after_store. }
  split; [exact Hrun|].
  intros Hrange. by rewrite Hrun, validateSettings_complete_inRange.
Qed.

Lemma importSettings_new b jsonData :
  settingsSession b (UnifiedSettingsManager_importSettings jsonData)
  = match JSON_parse_settings jsonData with
    | None => (Thrown "SyntaxError", (readySettingsManager b, b))
    | Some settings =>
        (Ok tt,
         (readySettingsManager b,
          if settingsIsPWA (page b)
          then set_indexedDB_settings (Some (validateSettings settings)) b
          else set_localStorage_gameSettings
                 (Some (JSON_stringify_data (validateSettings settings) (now b)))
                 b))
    end.
Proof.
  unfold settingsSession. settings_methods. cbn.
  destruct (settingsIsPWA (page b)); cbn;
    destruct (JSON_parse_settings jsonData); reflexivity.
Qed.

(** X24: [importSettings] stores the payload validated: the settings
    loaded next are the payload clamped into the ranges, in both
    backends, whatever the payload held. *)
Theorem importSettings_then_loadSettings
    (b : SettingsBrowser) (jsonData : string) (payload : PartialGameSettings) :
  JSON_parse_settings jsonData = Some payload ->
  (settingsIsPWA (page b) = false ->
   JSON_parse_data (JSON_stringify_data (validateSettings payload) (now b))
   = Some (complete (validateSettings payload))) ->
  fst (settingsSession b (UnifiedSettingsManager_importSettings jsonData ;;
                          UnifiedSettingsManager_loadSettings))
  = Ok (validateSettings payload).
Proof.
  intros Hparse Hcodec. unfold settingsSession.
  pose proof (importSettings_new b jsonData) as Himport.
  unfold settingsSession in Himport. rewrite Hparse in Himport.
  rewrite (bind_Ok _ _ _ _ _ Himport), load_after_store by done.
  f_equal. apply validateSettings_complete_inRange, validateSettings_clamped.
Qed.

(** X25: when the payload does not parse, [importSettings] fails and the
    settings stores are exactly as they were, in both backends. *)
Theorem importSettings_malformed (b : SettingsBrowser) (jsonData : string) :
  JSON_parse_settings jsonData = None ->
  settingsSession b (UnifiedSettingsManager_importSettings jsonData)
  = (Thrown "SyntaxError", (readySettingsManager b, b)).
Proof. intros Hparse. by rewrite importSettings_new, Hparse. Qed.

End SettingsProperties.

(** ** The two detectors *)

Section DetectorProperties.
Context `{JSON} `{SettingsJSON}.

(** X26: the settings manager tests the standalone display mode only,
    the statistics manager also accepts fullscreen and minimal-ui. The
    first test implies the second; in an installed application shown
    fullscreen or with a minimal interface the statistics are written to
    the structured store while the settings are written to the flat
    one. *)
Theorem detectors_disagree_outside_standalone :
  (forall w, settingsIsPWA w = true -> PwaStats.isPWA w = true)
  /\ (forall (b : SettingsBrowser) (stats_settings : GameSettings)
             (isCorrect : bool) (saved : GameSettings),
        displayStandalone (page b) = false ->
        PwaStats.isPWA (page b) = true ->
        (exists w',
           session (page b)
             (UnifiedStatsManager_saveStats stats_settings isCorrect)
           = (Ok tt, (readyManager (page b), w'))
           /\ localStorage_gameStatsMap w' = localStorage_gameStatsMap (page b)
           /\ indexedDB_stats w' !! generateSettingsKey stats_settings
              = Some (toStored
                        (updateStats
                           (getStatsForSettings (activeStats (page b))
                              stats_settings) isCorrect)))
        /\ (exists b',
              settingsSession b (UnifiedSettingsManager_saveSettings saved)
              = (Ok tt, (readySettingsManager b, b'))
              /\ indexedDB_settings b' = indexedDB_settings b
              /\ localStorage_gameSettings b'
                 = Some (JSON_stringify_data saved (now b)))).
Proof.
  split.
  - intros w. unfold settingsIsPWA, PwaStats.isPWA.
    destruct (displayStandalone w); [done|discriminate].
  - intros b stats_settings isCorrect saved Hstandalone Hpwa. split.
    + eexists. unfold session. rewrite saveStats_new.
      rewrite saveStats_ready by reflexivity. cbv zeta. rewrite Hpwa.
      split; [reflexivity|]. split; [reflexivity|].
      cbn [indexedDB_stats set_indexedDB]. rewrite lookup_insert_eq.
      do 2 f_equal. unfold getStatsForSettings, updateStatsForSettings.
      by rewrite lookup_insert_eq.
    + eexists. rewrite saveSettings_new.
      assert (settingsIsPWA (page b) = false) as ->.
      { unfold settingsIsPWA. by rewrite Hstandalone. }
      split; [reflexivity|]. split; reflexivity.
Qed.

End DetectorProperties.

(** ** The game component *)

Lemma adjustActiveCells_fits (st : GameState) :
  1 <= state_gridSize st -> 1 <= state_numActiveCells st ->
  state_gridSize (adjustActiveCells st) = state_gridSize st
  /\ state_showTime (adjustActiveCells st) = state_showTime st
  /\ state_answerTime (adjustActiveCells st) = state_answerTime st
  /\ state_targetConsecutive (adjustActiveCells st) = state_targetConsecutive st
  /\ 1 <= state_numActiveCells (adjustActiveCells st)
     <= state_gridSize st * state_gridSize st
  /\ adjustActiveCells (adjustActiveCells st) = adjustActiveCells st.
Proof.
  destruct st as [g s a n t c f]. unfold adjustActiveCells.
  cbn [state_gridSize state_numActiveCells]. intros Hg Hn.
  destruct (Z.ltb_spec (g * g) n) as [Hlt|Hle];
    cbn [update_numActiveCells state_gridSize state_showTime state_answerTime
         state_numActiveCells state_targetConsecutive].
  - rewrite Z.ltb_irrefl. repeat split; nia.
  - destruct (Z.ltb_spec (g * g) n); [lia|]. repeat split; lia.
Qed.

Lemma applySettings_settings temp st :
  state_gridSize (applySettings temp st)
  = gridSize (validateSettings (complete temp))
  /\ state_showTime (applySettings temp st)
     = showTime (validateSettings (complete temp))
  /\ state_answerTime (applySettings temp st)
     = answerTime (validateSettings (complete temp))
  /\ state_numActiveCells (applySettings temp st)
     = numActiveCells (validateSettings (complete temp))
  /\ state_targetConsecutive (applySettings temp st)
     = targetConsecutive (validateSettings (complete temp)).
Proof. unfold applySettings. cbv zeta. case_match; repeat split. Qed.

(** X27: after [applySettings] and the effect that adjusts the number of
    active cells, the settings of the game state are within the ranges
    of the data model, the active cells within the cells of the grid;
    the effect has nothing left to adjust. *)
Theorem applied_settings_fit_the_grid (temp : GameSettings) (st : GameState) :
  let st' := adjustActiveCells (applySettings temp st) in
  2 <= state_gridSize st' <= 8
  /\ 100 <= state_showTime st' <= 10000
  /\ 0 <= state_answerTime st' <= 30000
  /\ 1 <= state_numActiveCells st' <= state_gridSize st' * state_gridSize st'
  /\ 1 <= state_targetConsecutive st' <= 100
  /\ adjustActiveCells st' = st'.
Proof.
  pose proof (validateSettings_clamped (complete temp)) as (Hg & Hs & Ha & Hn & Ht).
  pose proof (applySettings_settings temp st) as (Eg & Es & Ea & En & Et).
  cbv zeta.
  destruct (adjustActiveCells_fits (applySettings temp st))
    as (Ag & As & Aa & At & An & Aidem); [lia..|].
  rewrite Ag, As, Aa, At, Eg, Es, Ea, Et. rewrite Eg in An.
  repeat split; first [lia | exact Aidem].
Qed.

Lemma everyCellMatches_eq solution userGrid :
  length userGrid = length solution ->
  everyCellMatches solution userGrid = true <-> userGrid = solution.
Proof.
  revert userGrid.
  induction solution as [|cell solution IH]; intros [|mark userGrid] Hlen;
    try discriminate; cbn [everyCellMatches].
  - done.
  - rewrite andb_true_iff, IH by (cbn in Hlen; lia).
    rewrite Bool.eqb_true_iff. split.
    + by intros [-> ->].
    + by intros [= -> ->].
Qed.

(** X28: the answer is judged correct exactly when every cell of the
    pattern is marked as in the pattern: for a user grid as long as the
    pattern, exactly when the two grids are equal; a user grid shorter
    than the pattern is never correct. *)
Theorem checkAnswer_correct_iff_equal (solution userGrid : list bool)
    (st : GameState) :
  (length userGrid = length solution ->
   fst (checkAnswer solution userGrid false st) = Some true
   <-> userGrid = solution)
  /\ ((length userGrid < length solution)%nat ->
      fst (checkAnswer solution userGrid false st) = Some false).
Proof.
  unfold checkAnswer. cbn [fst]. split.
  - intros Hlen. rewrite <- everyCellMatches_eq by done.
    split; [by intros [= ->]|by intros ->].
  - intros Hlt. f_equal. revert userGrid Hlt.
    induction solution as [|cell solution IH]; intros [|mark userGrid] Hlt;
      cbn [everyCellMatches length] in *; try lia; try done.
    rewrite IH by lia. apply andb_false_r.
Qed.

Lemma checkAnswer_correct_iff_equal_witness :
  fst (checkAnswer [true; false] [true; false]
         false (mkGameState 4 500 0 5 20 0 false)) = Some true
  <-> [true; false] = [true; false].
Proof.
  apply (proj1 (checkAnswer_correct_iff_equal [true; false] [true; false]
                  (mkGameState 4 500 0 5 20 0 false))).
  reflexivity.
Defined.

Lemma playRounds_snoc rounds round st :
  playRounds (rounds ++ [round]) st
  = match round with
    | (solution, userGrid, isRetryMode) =>
        match checkAnswer solution userGrid isRetryMode
                (snd (playRounds rounds st)) with
        | (Some isCorrect, st') =>
            (fst (playRounds rounds st) ++ [isCorrect], st')
        | (None, st') => (fst (playRounds rounds st), st')
        end
    end.
Proof. unfold playRounds. by rewrite foldl_app. Qed.


(** X30: with a target of at least 2, from a streak below the target
    (and 0 when the target was just reached), the streak of the game
    state stays below the target through any rounds: reaching the
    target sets the flag and starts the streak over, a wrong answer
    starts it over, a retry changes nothing; the target itself is never
    changed. *)
Theorem streak_stays_below_target (rounds : list Round) (st : GameState) :
  2 <= state_targetConsecutive st ->
  0 <= state_consecutiveCorrect st < state_targetConsecutive st ->
  (state_targetAchieved st = true -> state_consecutiveCorrect st = 0) ->
  let st' := snd (playRounds rounds st) in
  state_targetConsecutive st' = state_targetConsecutive st
  /\ 0 <= state_consecutiveCorrect st' < state_targetConsecutive st'
  /\ (state_targetAchieved st' = true -> state_consecutiveCorrect st' = 0).
Proof.
  intros Htarget Hstreak Hflag. cbv zeta.
  induction rounds as [|[[solution userGrid] isRetryMode] rounds IH]
    using rev_ind; [done|].
  rewrite playRounds_snoc. destruct IH as (IHt & IHs & IHf).
  unfold checkAnswer. destruct isRetryMode; cbn [snd]; [done|].
  destruct (everyCellMatches solution userGrid); cbn [snd].
  - destruct (state_targetAchieved (snd (playRounds rounds st))) eqn:Ea.
    + rewrite andb_false_r.
      cbn [update_streak state_targetConsecutive state_consecutiveCorrect
           state_targetAchieved].
      rewrite (IHf eq_refl) in *. split; [done|]. split; [lia|done].
    + rewrite andb_true_r.
      destruct (Z.leb_spec
                  (state_targetConsecutive (snd (playRounds rounds st)))
                  (state_consecutiveCorrect (snd (playRounds rounds st)) + 1));
        cbn [update_streak state_targetConsecutive state_consecutiveCorrect
             state_targetAchieved].
      * split; [done|]. split; [lia|done].
      * split; [done|]. split; [lia|discriminate].
  - cbn [update_streak state_targetConsecutive state_consecutiveCorrect
         state_targetAchieved].
    split; [done|]. split; [lia|discriminate].
Qed.

Lemma streak_stays_below_target_witness :
  state_targetConsecutive
    (snd (playRounds [([true], [true], false); ([true], [true], false)]
            (mkGameState 4 500 0 5 2 0 false)))
  = 2
  /\ 0 <= state_consecutiveCorrect
            (snd (playRounds [([true], [true], false); ([true], [true], false)]
                    (mkGameState 4 500 0 5 2 0 false)))
       < state_targetConsecutive
           (snd (playRounds [([true], [true], false); ([true], [true], false)]
                   (mkGameState 4 500 0 5 2 0 false)))
  /\ (state_targetAchieved
        (snd (playRounds [([true], [true], false); ([true], [true], false)]
                (mkGameState 4 500 0 5 2 0 false))) = true ->
      state_consecutiveCorrect
        (snd (playRounds [([true], [true], false); ([true], [true], false)]
                (mkGameState 4 500 0 5 2 0 false))) = 0).
Proof.
  apply (streak_stays_below_target
           [([true], [true], false); ([true], [true], false)]
           (mkGameState 4 500 0 5 2 0 false)).
  - cbn. lia.
  - cbn. lia.
  - intros E. discriminate E.
Defined.

(** ** The settings manager on concrete stores

    From here on the JSON functions of the settings are those of
    [RefSettingsJSON]. *)

#[local] Existing Instance RefSettingsJSON.json.

Lemma saveSettings_then_loadSettings_witness :
  fst (settingsSession (Scenario.settingsBrowser Scenario.newTab)
         (UnifiedSettingsManager_saveSettings Scenario.wild ;;
          UnifiedSettingsManager_loadSettings))
  = Ok (validateSettings (complete Scenario.wild)).
Proof.
  apply (proj1 (saveSettings_then_loadSettings (H := RefSettingsJSON.json)
                  (Scenario.settingsBrowser Scenario.newTab) Scenario.wild
                  (fun _ => eq_refl))).
Defined.

Lemma importSettings_then_loadSettings_witness :
  fst (settingsSession (Scenario.settingsBrowser Scenario.newTab)
         (UnifiedSettingsManager_importSettings
            (RefSettingsJSON.print_settings true 0 Scenario.wild) ;;
          UnifiedSettingsManager_loadSettings))
  = Ok (validateSettings (complete Scenario.wild)).
Proof.
  apply (importSettings_then_loadSettings (H := RefSettingsJSON.json)
           (Scenario.settingsBrowser Scenario.newTab)
           (RefSettingsJSON.print_settings true 0 Scenario.wild)
           (complete Scenario.wild)).
  - vm_compute. reflexivity.
  - intros _. vm_compute. reflexivity.
Defined.

Lemma importSettings_malformed_witness :
  settingsSession (Scenario.settingsBrowser Scenario.newTab)
    (UnifiedSettingsManager_importSettings "{not json")
  = (Thrown "SyntaxError",
     (readySettingsManager (Scenario.settingsBrowser Scenario.newTab),
      Scenario.settingsBrowser Scenario.newTab)).
Proof.
  apply (importSettings_malformed (H := RefSettingsJSON.json)
           (Scenario.settingsBrowser Scenario.newTab) "{not json").
  vm_compute. reflexivity.
Defined.

Lemma detectors_disagree_outside_standalone_witness :
  (exists w',
     session Scenario.fullscreenApp
       (UnifiedStatsManager_saveStats Scenario.easy true)
     = (Ok tt, (readyManager Scenario.fullscreenApp, w'))
     /\ localStorage_gameStatsMap w' = None
     /\ indexedDB_stats w' !! generateSettingsKey Scenario.easy
        = Some (toStored (updateStats initializeStats true)))
  /\ (exists b',
        settingsSession (Scenario.settingsBrowser Scenario.fullscreenApp)
          (UnifiedSettingsManager_saveSettings Scenario.large)
        = (Ok tt,
           (readySettingsManager
              (Scenario.settingsBrowser Scenario.fullscreenApp), b'))
        /\ indexedDB_settings b' = None
        /\ localStorage_gameSettings b'
           = Some (RefSettingsJSON.print_data Scenario.large
                     "2025-01-01T00:00:00.000Z")).
Proof.
  apply (proj2 (detectors_disagree_outside_standalone
                  (H := RefJSON.json) (H0 := RefSettingsJSON.json))
           (Scenario.settingsBrowser Scenario.fullscreenApp)
           Scenario.easy true Scenario.large);
    reflexivity.
Defined.

Lemma validateSettings_zero_is_absent_witness :
  numActiveCells
    (validateSettings (mkPartial None None None (Some (-1)) None)) = 1.
Proof.
  apply (proj2 (proj2 (proj2 (validateSettings_zero_is_absent
           (mkPartial None None None None None))))).
  lia.
Defined.
